(** * Server-side copy middleware (swift/common/middleware/copy.py)

    A shallow embedding of the copy middleware and the properties its
    specification states about it.

    Layout:
    - [PyStr]: the Python string operations the middleware relies on
      (lower, startswith, the substring test, split with a maximum,
      urllib's quote and unquote);
    - [Helpers]: the helpers copy.py imports from the rest of swift
      (header classification, split_path, config_true_value, ...);
    - [Request], [Response]: swob's requests and responses, followed by
      the exceptions and the trace of calls into the pipeline;
    - [Copy]: the functions of copy.py itself;
    - [Views]: names for pieces of those functions, used in statements;
    - [Scenarios]: concrete requests and applications;
    - the lemmas and theorems. *)

From Stdlib Require Import ZArith Lia Ascii.
From stdpp Require Import base option list gmap fin_maps strings.

Local Open Scope Z_scope.

(** ** Python strings *)

Module PyStr.

(** [str.lower] on byte strings: only A-Z change. *)
Definition lower_ascii (c : ascii) : ascii :=
  let n := nat_of_ascii c in
  if ((65 <=? n)%nat && (n <=? 90)%nat)%bool then ascii_of_nat (n + 32) else c.

Fixpoint lower (s : string) : string :=
  match s with
  | EmptyString => EmptyString
  | String c s' => String (lower_ascii c) (lower s')
  end.

(** [s.startswith(p)] *)
Fixpoint startswith (p s : string) : bool :=
  match p, s with
  | EmptyString, _ => true
  | String a p', String b s' => if decide (a = b) then startswith p' s' else false
  | String _ _, EmptyString => false
  end.

(** [sub in s]: [sub] occurs at some position of [s]. *)
Fixpoint contains (sub s : string) : bool :=
  if startswith sub s then true
  else match s with
       | EmptyString => false
       | String _ s' => contains sub s'
       end.

(** The number of positions of [s] at which [sub] starts. *)
Fixpoint occurrences (sub s : string) : nat :=
  ((if startswith sub s then 1 else 0) +
   match s with
   | EmptyString => 0
   | String _ s' => occurrences sub s'
   end)%nat.

(** [s.split('/', maxsplit)]: [cur] is the piece being read. *)
Fixpoint split_go (s : string) (maxsplit : nat) (cur : string) : list string :=
  match s with
  | EmptyString => [cur]
  | String c s' =>
      match maxsplit with
      | O => [cur +:+ s]
      | S m =>
          if decide (c = "/"%char) then cur :: split_go s' m EmptyString
          else split_go s' maxsplit (cur +:+ String c EmptyString)
      end
  end.

Definition split_slash (s : string) (maxsplit : nat) : list string :=
  split_go s maxsplit EmptyString.

(** Hexadecimal digits, as urllib's [_hextochr] table reads them
    (both cases) and as [quote] writes them (upper case). *)
Definition hex_value (c : ascii) : option nat :=
  let n := nat_of_ascii c in
  if ((48 <=? n) && (n <=? 57))%nat%bool then Some (n - 48)%nat
  else if ((65 <=? n) && (n <=? 70))%nat%bool then Some (n - 55)%nat
  else if ((97 <=? n) && (n <=? 102))%nat%bool then Some (n - 87)%nat
  else None.

Definition hex_digit (n : nat) : ascii :=
  if (n <? 10)%nat then ascii_of_nat (48 + n) else ascii_of_nat (55 + n).

(** [urllib.unquote]: every [%XX] with two hexadecimal digits becomes
    the byte it names; any other [%] stays. *)
Fixpoint unquote (s : string) : string :=
  match s with
  | EmptyString => EmptyString
  | String c s' =>
      if decide (c = "%"%char) then
        match s' with
        | String h (String l r) =>
            match hex_value h, hex_value l with
            | Some a, Some b => String (ascii_of_nat (16 * a + b)) (unquote r)
            | _, _ => String c (unquote s')
            end
        | _ => String c (unquote s')
        end
      else String c (unquote s')
  end.

(** The bytes [urllib.quote] leaves alone: letters, digits, [_.-]
    and the default safe character [/]. *)
Definition always_safe (c : ascii) : bool :=
  let n := nat_of_ascii c in
  (((65 <=? n) && (n <=? 90)) || ((97 <=? n) && (n <=? 122)) ||
   ((48 <=? n) && (n <=? 57)) ||
   bool_decide (c = "_"%char) || bool_decide (c = "."%char) ||
   bool_decide (c = "-"%char) || bool_decide (c = "/"%char))%nat%bool.

Definition quote_ascii (c : ascii) : string :=
  if always_safe c then String c EmptyString
  else
    let n := nat_of_ascii c in
    String "%"%char (String (hex_digit (n / 16)) (String (hex_digit (n mod 16)) EmptyString)).

(** [urllib.quote(s)] *)
Fixpoint quote (s : string) : string :=
  match s with
  | EmptyString => EmptyString
  | String c s' => quote_ascii c +:+ quote s'
  end.

End PyStr.

(** ** Helpers imported by copy.py *)

Module Helpers.
Import PyStr.

(** Header mappings.  swob's header mappings compare names without
    regard to case: a header set is a finite map keyed by the
    lower-case name.  A name the code writes is lowered on access; a
    key read back from [items()] is used as it is. *)
Abbreviation HeaderSet := (gmap string string).

(** Access by a name the code writes: [h.get(name)], [h[name] = v],
    [h.pop(name, None)] (and [del h[name]] where the name is known to
    be there), [name in h]. *)
Definition hget (h : HeaderSet) (name : string) : option string := h !! lower name.
Definition hset (name v : string) (h : HeaderSet) : HeaderSet := <[lower name := v]> h.
Definition hpop (name : string) (h : HeaderSet) : HeaderSet := delete (lower name) h.
Definition hin (name : string) (h : HeaderSet) : bool := bool_decide (is_Some (h !! lower name)).

(** Python truth of an optional string: present and not empty. *)
Definition truthy (v : option string) : bool :=
  match v with
  | Some s => negb (bool_decide (s = ""))
  | None => false
  end.

(** Modelled from the spec: swift.common.request_helpers, from which
    copy.py imports the classification, is not part of the sources
    verified here.  Section 3 classifies a header by its name alone, through a
    prefix; the prefixes are swift's [x-<type>-sysmeta-],
    [x-<type>-meta-] and [x-object-transient-sysmeta-], and a name
    that is only the prefix is not metadata. *)
Definition is_sys_meta (server_type key : string) : bool :=
  if (String.length key <=? 11 + String.length server_type)%nat then false
  else startswith ("x-" +:+ lower server_type +:+ "-sysmeta-") (lower key).

Definition is_user_meta (server_type key : string) : bool :=
  if (String.length key <=? 8 + String.length server_type)%nat then false
  else startswith ("x-" +:+ lower server_type +:+ "-meta-") (lower key).

Definition is_sys_or_user_meta (server_type key : string) : bool :=
  is_user_meta server_type key || is_sys_meta server_type key.

Definition OBJECT_TRANSIENT_SYSMETA_PREFIX : string := "x-object-transient-sysmeta-".

Definition is_object_transient_sysmeta (key : string) : bool :=
  if (String.length key <=? String.length OBJECT_TRANSIENT_SYSMETA_PREFIX)%nat then false
  else startswith OBJECT_TRANSIENT_SYSMETA_PREFIX (lower key).

(** Modelled from the spec: request_helpers.remove_items and
    copy_header_subset are imported, not defined, by copy.py.  The
    spec (section 4.2): strip the headers the condition selects; copy
    the headers of the source the condition selects. *)
Definition remove_items (headers : HeaderSet) (condition : string -> bool) : HeaderSet :=
  filter (fun kv => condition kv.1 = false) headers.

Definition copy_header_subset (from_h to_h : HeaderSet) (condition : string -> bool)
  : HeaderSet :=
  map_fold (fun k v acc => if condition k then <[k:=v]> acc else acc) to_h from_h.

(** Modelled from the spec: swift.common.utils.config_true_value is
    imported, not defined, by copy.py; the flag is set by one of
    swift's true values, in any case. *)
Definition TRUE_VALUES : list string := ["true"; "1"; "yes"; "on"; "t"; "y"].

Definition config_true_value (value : string) : bool :=
  bool_decide (lower value ∈ TRUE_VALUES).

(** Modelled from the spec: swift.common.utils.split_path is
    imported, not defined, by copy.py; every call in copy.py passes
    rest_with_last=True, the only branch embedded.  Section 4.1: split into the expected number of
    non-empty components, the last one taking the rest of the path.
    [None] stands for the ValueError; a missing optional segment is
    Python's None. *)
Definition split_path (path : string) (minsegs maxsegs : nat)
  : option (list (option string)) :=
  let maxsegs := if decide (maxsegs = 0%nat) then minsegs else maxsegs in
  if decide (maxsegs < minsegs)%nat then None
  else
    let segs := split_slash path maxsegs in
    let minsegs := S minsegs in
    let maxsegs := S maxsegs in
    let count := length segs in
    if (negb (bool_decide (head segs = Some "")) || (count <? minsegs)%nat ||
        (maxsegs <? count)%nat ||
        bool_decide ("" ∈ take (minsegs - 1) (drop 1 segs)))
    then None
    else
      let segs := take (maxsegs - 1) (drop 1 segs) in
      Some ((Some <$> segs) ++ replicate (maxsegs - 1 - length segs) None).

(** Modelled from the spec: swift.common.http is imported, not
    defined, by copy.py.  Sections 4.3 and 6: success is a 2xx status, created is 201. *)
Definition HTTP_CREATED : Z := 201.
Definition HTTP_MULTIPLE_CHOICES : Z := 300.
Definition is_success (status : Z) : bool := (200 <=? status) && (status <=? 299).

End Helpers.

(** ** Requests, responses, exceptions *)

(** A swob request.  [content_length] is swob's integer view of the
    Content-Length header and [etag] its view of the Etag header; both
    are kept apart from [headers].  The fields [post_as_copy],
    [orig_req_method] and [authorize_override] are the environ keys
    swift.post_as_copy (present or not), swift.orig_req_method and
    swift.authorize_override (with swift.authorize). *)
Module Request.

Record t := mk {
  method : string;
  path_info : string;
  headers : gmap string string;
  content_length : option Z;
  params : gmap string string;
  etag : option string;
  wsgi_input : list string;
  post_as_copy : bool;
  orig_req_method : option string;
  authorize_override : bool
}.

Definition set_method (v : string) (r : t) : t :=
  mk v (path_info r) (headers r) (content_length r) (params r) (etag r)
     (wsgi_input r) (post_as_copy r) (orig_req_method r) (authorize_override r).

Definition set_path_info (v : string) (r : t) : t :=
  mk (method r) v (headers r) (content_length r) (params r) (etag r)
     (wsgi_input r) (post_as_copy r) (orig_req_method r) (authorize_override r).

Definition set_headers (v : gmap string string) (r : t) : t :=
  mk (method r) (path_info r) v (content_length r) (params r) (etag r)
     (wsgi_input r) (post_as_copy r) (orig_req_method r) (authorize_override r).

Definition set_content_length (v : option Z) (r : t) : t :=
  mk (method r) (path_info r) (headers r) v (params r) (etag r)
     (wsgi_input r) (post_as_copy r) (orig_req_method r) (authorize_override r).

Definition set_params (v : gmap string string) (r : t) : t :=
  mk (method r) (path_info r) (headers r) (content_length r) v (etag r)
     (wsgi_input r) (post_as_copy r) (orig_req_method r) (authorize_override r).

Definition set_etag (v : option string) (r : t) : t :=
  mk (method r) (path_info r) (headers r) (content_length r) (params r) v
     (wsgi_input r) (post_as_copy r) (orig_req_method r) (authorize_override r).

Definition set_wsgi_input (v : list string) (r : t) : t :=
  mk (method r) (path_info r) (headers r) (content_length r) (params r) (etag r)
     v (post_as_copy r) (orig_req_method r) (authorize_override r).

Definition set_post_as_copy (v : bool) (r : t) : t :=
  mk (method r) (path_info r) (headers r) (content_length r) (params r) (etag r)
     (wsgi_input r) v (orig_req_method r) (authorize_override r).

Definition set_orig_req_method (v : option string) (r : t) : t :=
  mk (method r) (path_info r) (headers r) (content_length r) (params r) (etag r)
     (wsgi_input r) (post_as_copy r) v (authorize_override r).

Definition set_authorize_override (v : bool) (r : t) : t :=
  mk (method r) (path_info r) (headers r) (content_length r) (params r) (etag r)
     (wsgi_input r) (post_as_copy r) (orig_req_method r) v.

(** [req.split_path(minsegs, maxsegs, True)]; SCRIPT_NAME is empty in
    the proxy pipeline. *)
Definition split_path (r : t) (minsegs maxsegs : nat) : option (list (option string)) :=
  Helpers.split_path (path_info r) minsegs maxsegs.

(** [req.copy_get()]: the same request as a bodiless GET. *)
Definition copy_get (r : t) : t :=
  set_wsgi_input [] (set_content_length (Some 0) (set_method "GET" r)).

End Request.

(** A swob response: the status line as code and reason, the headers,
    swob's views of Content-Length and Etag, and the body iterator. *)
Module Response.

Record t := mk {
  status : Z * string;
  headers : gmap string string;
  content_length : option Z;
  etag : option string;
  app_iter : list string
}.

Definition status_int (r : t) : Z := (status r).1.

(** A response made by this middleware: a status, a body and its type. *)
Definition make (st : Z * string) (body content_type : string) : t :=
  mk st {[ "content-type" := content_type ]}
     (Some (Z.of_nat (String.length body))) None [body].

End Response.

(** What reaches [start_response], with the body iterator: the state a
    WSGIContext keeps after [_app_call]. *)
Record WSGIContext := mkWSGI {
  _response_status : Z * string;
  _response_headers : list (string * string);
  app_resp : list string
}.

Definition _get_status_int (c : WSGIContext) : Z := (_response_status c).1.

(** [resp(environ, start_response)] for a swob response. *)
Definition respond (r : Response.t) : WSGIContext :=
  mkWSGI (Response.status r) (map_to_list (Response.headers r)) (Response.app_iter r).

Definition HTTPBadRequest (body content_type : string) : Response.t :=
  Response.make (400, "Bad Request") body content_type.

Definition HTTPPreconditionFailed (body : string) : Response.t :=
  Response.make (412, "Precondition Failed") body "text/html; charset=UTF-8".

Definition HTTPRequestEntityTooLarge : Response.t :=
  Response.make (413, "Request Entity Too Large") "" "text/html; charset=UTF-8".

(** The exceptions the code can raise.  swob's HTTP errors are responses
    that are raised. *)
Inductive exn :=
| HTTPException (r : Response.t)
| ValueError
| AttributeError.

Inductive result (A : Type) :=
| Ok (a : A)
| Raise (e : exn).
Arguments Ok {A} a.
Arguments Raise {A} e.

(** Calls into the rest of the pipeline: a sub-request made with
    make_subrequest and answered through get_response, and a call of
    the wrapped application with the request's own environ. *)
Inductive Call :=
| SubRequest (r : Request.t)
| AppCall (r : Request.t).

(** Computations that call the application and may raise: the calls made
    so far, in order, and the outcome. *)
Definition M (A : Type) : Type := list Call * result A.

Definition ret {A} (a : A) : M A := ([], Ok a).
Definition raise {A} (e : exn) : M A := ([], Raise e).
Definition lift {A} (r : result A) : M A := ([], r).
Definition emit (c : Call) : M unit := ([c], Ok tt).

Definition bind {A B} (m : M A) (k : A -> M B) : M B :=
  match m with
  | (tr, Ok a) => let '(tr', r) := k a in (tr ++ tr', r)
  | (tr, Raise e) => (tr, Raise e)
  end.

Notation "x <~ m ; k" := (bind m (fun x => k))
  (at level 20, m at level 100, k at level 200, only parsing).
Notation "' p <~ m ; k" := (bind m (fun x => match x with p => k end))
  (at level 20, p pattern, m at level 100, k at level 200, only parsing).

Definition calls {A} (m : M A) : list Call := m.1.
Definition outcome {A} (m : M A) : result A := m.2.

(** Modelled from the spec: swift.common.constraints.check_account_format
    is imported, not defined, by copy.py.  Section 7: a failed account
    check is raised by the collaborator; swift refuses an empty name
    and a name with a slash, and returns the name otherwise. *)
Definition check_account_format (name : string) : result string :=
  if bool_decide (name = "") then
    Raise (HTTPException (HTTPPreconditionFailed "Account name cannot be empty"))
  else if PyStr.contains "/" name then
    Raise (HTTPException (HTTPPreconditionFailed "Account name cannot contain slashes"))
  else Ok name.

(** ** copy.py *)

Module Copy.
Import PyStr Helpers.

(** Lines 152-174.  The result is the tuple of path parts; a header
    that is not there makes [unquote(None)] raise. *)
Definition _check_path_header (req : Request.t) (name : string) (length : nat)
    (error_msg : string) : result (list (option string)) :=
  match hget (Request.headers req) name with
  | None => Raise AttributeError
  | Some v =>
      let src_header := unquote v in
      let src_header :=
        if startswith "/" src_header then src_header else "/" +:+ src_header in
      match split_path src_header length length with
      | Some parts => Ok parts
      | None => Raise (HTTPException (HTTPPreconditionFailed error_msg))
      end
  end.

Definition X_COPY_FROM_MSG : string :=
  "X-Copy-From header must be of the form <container name>/<object name>".

Definition DESTINATION_MSG : string :=
  "Destination header must be of the form <container name>/<object name>".

(** Lines 177-190. *)
Definition _check_copy_from_header (req : Request.t) : result (list (option string)) :=
  _check_path_header req "X-Copy-From" 2 X_COPY_FROM_MSG.

(** Lines 193-206. *)
Definition _check_destination_header (req : Request.t) : result (list (option string)) :=
  _check_path_header req "Destination" 2 DESTINATION_MSG.

(** Unpacking a two-element result, as [a, b = f(...)] does. *)
Definition unpack2 (r : result (list (option string))) : result (string * string) :=
  match r with
  | Ok [Some a; Some b] => Ok (a, b)
  | Ok _ => Raise ValueError
  | Raise e => Raise e
  end.

(** Lines 209-220, on the two header sets.  The keys come from
    [items()] and are written back as they are. *)
Definition pass_headers : list string := ["x-delete-at"].

Definition _copy_headers_into (from_h to_h : HeaderSet) : HeaderSet :=
  map_fold
    (fun k v acc =>
       if is_sys_or_user_meta "object" k || is_object_transient_sysmeta k ||
          bool_decide (lower k ∈ pass_headers)
       then <[k:=v]> acc else acc)
    to_h from_h.

(** Lines 244-253. *)
Definition _adjust_put_response (ctx : WSGIContext) (req : Request.t)
    (additional_resp_headers : gmap string string) : WSGIContext :=
  if Request.post_as_copy req then
    if bool_decide (_get_status_int ctx = HTTP_CREATED) then
      mkWSGI (202, "Accepted") (_response_headers ctx) (app_resp ctx)
    else ctx
  else if is_success (_get_status_int ctx) then
    mkWSGI (_response_status ctx)
           (_response_headers ctx ++ map_to_list additional_resp_headers)
           (app_resp ctx)
  else ctx.

(** Lines 258-264: one turn of the loop over the response headers, at
    index [i], where the pair read is [(header, value)]. *)
Definition options_step (i : nat) (header value : string)
    (hs : list (string * string)) : list (string * string) :=
  let hs :=
    if bool_decide (lower header = "allow") && negb (contains "COPY" value)
    then <[i := ("Allow", value +:+ ", COPY")]> hs else hs in
  if bool_decide (lower header = "access-control-allow-methods") &&
     negb (contains "COPY" value)
  then <[i := ("Access-Control-Allow-Methods", value +:+ ", COPY")]> hs else hs.

(** The loop reads the list it updates: [n] turns remain, at index [i]. *)
Fixpoint options_loop (n i : nat) (hs : list (string * string)) : list (string * string) :=
  match n with
  | O => hs
  | S n' =>
      match hs !! i with
      | None => hs
      | Some (header, value) => options_loop n' (S i) (options_step i header value hs)
      end
  end.

(** Lines 257-264, on the context [_app_call] left. *)
Definition adapt_OPTIONS (ctx : WSGIContext) : WSGIContext :=
  if is_success (_get_status_int ctx) then
    mkWSGI (_response_status ctx)
           (options_loop (length (_response_headers ctx)) 0 (_response_headers ctx))
           (app_resp ctx)
  else ctx.

(** The state of the middleware object that the handlers read. *)
Record Middleware := mkMiddleware {
  account_name : string;
  container_name : string;
  object_name : string;
  object_post_as_copy : bool
}.

Section WithApp.

(** The wrapped application, through the two ways it is called, and the
    size ceiling swift.common.constraints configures. *)
Variable get_response : Request.t -> Response.t.
Variable _app_call : Request.t -> WSGIContext.
Variable MAX_FILE_SIZE : Z.

(** Lines 230-234. *)
Definition get_source_resp (req : Request.t) : M Response.t :=
  bind (emit (SubRequest req)) (fun _ => ret (get_response req)).

(** Lines 236-242. *)
Definition send_put_req (req : Request.t) (additional_resp_headers : gmap string string)
  : M WSGIContext :=
  bind (emit (AppCall req))
       (fun _ => ret (_adjust_put_response (_app_call req) req additional_resp_headers)).

(** Lines 255-268. *)
Definition handle_OPTIONS_request (req : Request.t) : M WSGIContext :=
  bind (emit (AppCall req)) (fun _ => ret (adapt_OPTIONS (_app_call req))).

(** Lines 384-415. *)
Definition _get_source_object (source_path : string) (req : Request.t) : M Response.t :=
  let source_req := Request.copy_get req in
  let source_req :=
    Request.set_headers
      (hpop "X-Backend-Storage-Policy-Index" (Request.headers source_req)) source_req in
  let source_req := Request.set_path_info (quote source_path) source_req in
  let source_req :=
    Request.set_headers (hset "X-Newest" "true" (Request.headers source_req)) source_req in
  let source_req :=
    if Request.post_as_copy req then Request.set_authorize_override true source_req
    else source_req in
  let params := Request.params source_req in
  let source_req :=
    if bool_decide (params !! "multipart-manifest" = Some "get")
    then Request.set_params (<["format" := "raw"]> params) source_req
    else source_req in
  source_resp <~ get_source_resp source_req;
  match Response.content_length source_resp with
  | None => ret HTTPRequestEntityTooLarge
  | Some n =>
      if MAX_FILE_SIZE <? n then ret HTTPRequestEntityTooLarge
      else ret source_resp
  end.

(** Lines 417-430.  The result is a plain dictionary. *)
Definition _create_response_headers (source_path : string) (source_resp : Response.t)
    (sink_req : Request.t) : result (gmap string string) :=
  match take 2 (drop 2 (split_slash source_path 3)) with
  | [acct; path] =>
      let resp_headers : gmap string string := ∅ in
      let resp_headers := <["X-Copied-From-Account" := quote acct]> resp_headers in
      let resp_headers := <["X-Copied-From" := quote path]> resp_headers in
      let resp_headers :=
        match hget (Response.headers source_resp) "last-modified" with
        | Some lm => <["X-Copied-From-Last-Modified" := lm]> resp_headers
        | None => resp_headers
        end in
      Ok (map_fold
            (fun k v acc =>
               if is_sys_or_user_meta "object" k || bool_decide (lower k = "x-delete-at")
               then <[k:=v]> acc else acc)
            resp_headers (Request.headers sink_req))
  | _ => Raise ValueError
  end.

(** Lines 432-510.  The logger is not modelled.  [Request.blank] with
    the request's environ and headers makes [sink_req] a copy of the
    request: changes to it leave [req] as it was.  At lines 487-488
    swob's header mappings decide what a source without Content-Type
    gives: reading a name that is not there gives None, and writing
    None to a name deletes it. *)
Definition handle_PUT (req : Request.t) : M WSGIContext :=
  if match Request.content_length req with
     | Some n => negb (n =? 0)
     | None => false
     end
  then ret (respond (HTTPBadRequest "Copy requests require a zero byte body" "text/plain"))
  else
    ' (ver, acct) <~ lift
        match Request.split_path req 2 3 with
        | Some [Some ver; Some acct; _rest] => Ok (ver, acct)
        | _ => Raise ValueError
        end;
    src_account_name <~ lift
        match hget (Request.headers req) "X-Copy-From-Account" with
        | Some a => if truthy (Some a) then check_account_format a else Ok acct
        | None => Ok acct
        end;
    ' (src_container_name, src_obj_name) <~ lift (unpack2 (_check_copy_from_header req));
    let source_path :=
      "/" +:+ ver +:+ "/" +:+ src_account_name +:+ "/" +:+ src_container_name
          +:+ "/" +:+ src_obj_name in
    source_resp <~ _get_source_object source_path req;
    if HTTP_MULTIPLE_CHOICES <=? Response.status_int source_resp
    then ret (respond source_resp)
    else
      let sink_req := req in
      let params := Request.params sink_req in
      let sink_req :=
        if bool_decide (params !! "multipart-manifest" = Some "get") then
          let params :=
            if hin "X-Static-Large-Object" (Response.headers source_resp)
            then <["multipart-manifest" := "put"]> params else params in
          match hget (Response.headers source_resp) "X-Object-Manifest" with
          | Some manifest =>
              Request.set_params (delete "multipart-manifest" params)
                (Request.set_headers
                   (hset "X-Object-Manifest" manifest (Request.headers sink_req)) sink_req)
          | None => Request.set_params params sink_req
          end
        else sink_req in
      let sink_req := Request.set_wsgi_input (Response.app_iter source_resp) sink_req in
      let sink_req :=
        Request.set_content_length (Response.content_length source_resp) sink_req in
      let sink_req := Request.set_etag (Response.etag source_resp) sink_req in
      let sink_req :=
        Request.set_headers (hpop "X-Copy-From" (Request.headers sink_req)) sink_req in
      let sink_req :=
        Request.set_headers (hpop "X-Copy-From-Account" (Request.headers sink_req)) sink_req in
      let sink_req :=
        if negb (truthy (hget (Request.headers req) "content-type")) then
          match hget (Response.headers source_resp) "Content-Type" with
          | Some ct =>
              Request.set_headers
                (hset "Content-Type" ct (Request.headers sink_req)) sink_req
          | None =>
              Request.set_headers
                (hpop "Content-Type" (Request.headers sink_req)) sink_req
          end
        else sink_req in
      let fresh_meta_flag :=
        config_true_value
          (default "false" (hget (Request.headers sink_req) "x-fresh-metadata")) in
      let sink_req :=
        if fresh_meta_flag || Request.post_as_copy sink_req then
          let condition := fun k => is_sys_meta "object" k in
          let sink_req :=
            Request.set_headers (remove_items (Request.headers sink_req) condition)
                                sink_req in
          Request.set_headers
            (copy_header_subset (Response.headers source_resp) (Request.headers sink_req)
                                condition)
            sink_req
        else
          let sink_req :=
            Request.set_headers
              (_copy_headers_into (Response.headers source_resp) (Request.headers sink_req))
              sink_req in
          Request.set_headers
            (_copy_headers_into (Request.headers req) (Request.headers sink_req)) sink_req in
      resp_headers <~ lift (_create_response_headers source_path source_resp sink_req);
      send_put_req sink_req resp_headers.

(** Lines 340-353. *)
Definition handle_object_post_as_copy (self : Middleware) (req : Request.t)
  : M WSGIContext :=
  let req := Request.set_method "PUT" req in
  let req :=
    Request.set_path_info
      ("/v1/" +:+ account_name self +:+ "/" +:+ container_name self
              +:+ "/" +:+ object_name self) req in
  let req := Request.set_content_length (Some 0) req in
  let req := Request.set_headers (hpop "Range" (Request.headers req)) req in
  let req :=
    Request.set_headers
      (hset "X-Copy-From" (quote ("/" +:+ container_name self +:+ "/" +:+ object_name self))
            (Request.headers req)) req in
  let req := Request.set_post_as_copy true req in
  let params := Request.params req in
  let params := <["multipart-manifest" := "get"]> params in
  let req := Request.set_params params req in
  handle_PUT req.

(** Lines 355-382.  The names the handler stores back on the middleware
    object are not read again while the request is handled. *)
Definition handle_COPY (self : Middleware) (req : Request.t) : M WSGIContext :=
  if negb (truthy (hget (Request.headers req) "Destination")) then
    ret (respond (HTTPPreconditionFailed "Destination header required"))
  else
    let dest_account := account_name self in
    ' (dest_account, req) <~ lift
        (if hin "Destination-Account" (Request.headers req) then
           match check_account_format
                   (default "" (hget (Request.headers req) "Destination-Account")) with
           | Ok dest_account =>
               let req :=
                 Request.set_headers
                   (hset "X-Copy-From-Account" (account_name self) (Request.headers req))
                   req in
               let req :=
                 Request.set_headers (hpop "Destination-Account" (Request.headers req)) req in
               Ok (dest_account, req)
           | Raise e => Raise e
           end
         else Ok (dest_account, req));
    ' (dest_container, dest_object) <~ lift (unpack2 (_check_destination_header req));
    let source := "/" +:+ container_name self +:+ "/" +:+ object_name self in
    let req := Request.set_method "PUT" req in
    ver <~ lift
        match Request.split_path req 1 2 with
        | Some [Some ver; _junk] => Ok ver
        | _ => Raise ValueError
        end;
    let req :=
      Request.set_path_info
        ("/" +:+ ver +:+ "/" +:+ dest_account +:+ "/" +:+ dest_container
             +:+ "/" +:+ dest_object) req in
    let req := Request.set_content_length (Some 0) req in
    let req :=
      Request.set_headers (hset "X-Copy-From" (quote source) (Request.headers req)) req in
    let req := Request.set_headers (hpop "Destination" (Request.headers req)) req in
    handle_PUT req.

(** Lines 512-514. *)
Definition handle_OPTIONS (req : Request.t) : M WSGIContext :=
  handle_OPTIONS_request req.

(** [self.app(env, start_response)]: the request goes on as it is. *)
Definition pass_through (req : Request.t) : M WSGIContext :=
  bind (emit (AppCall req)) (fun _ => ret (_app_call req)).

(** Lines 310-338. *)
Definition __call__ (self : Middleware) (req : Request.t) : M WSGIContext :=
  match Request.split_path req 4 4 with
  | Some [Some version; Some account; Some container; Some obj] =>
      let self := mkMiddleware account container obj (object_post_as_copy self) in
      let req := Request.set_orig_req_method (Some (Request.method req)) req in
      if bool_decide (Request.method req = "PUT") &&
         truthy (hget (Request.headers req) "X-Copy-From")
      then handle_PUT req
      else if bool_decide (Request.method req = "COPY") then handle_COPY self req
      else if bool_decide (Request.method req = "POST") && object_post_as_copy self
      then handle_object_post_as_copy self req
      else if bool_decide (Request.method req = "OPTIONS") then handle_OPTIONS req
      else pass_through req
  | _ => pass_through req
  end.

End WithApp.
End Copy.

(** ** Configuration (lines 273-308 and 517-523) *)

Module Config.
Import PyStr Helpers.

(** The bytes [str.rsplit(None, ...)] splits at. *)
Definition whitespace (c : ascii) : bool :=
  let n := nat_of_ascii c in
  ((9 <=? n) && (n <=? 13) || (n =? 32))%nat%bool.

(** [s.rsplit(None, 1)[-1]]: the last run of bytes that are not white
    space; [cur] is the run being read and [last] the last one read
    whole.  [None] stands for the IndexError of a string with no such
    run. *)
Fixpoint rsplit_last_go (s cur : string) (last : option string) : option string :=
  match s with
  | EmptyString => if bool_decide (cur = "") then last else Some cur
  | String c s' =>
      if whitespace c
      then rsplit_last_go s' "" (if bool_decide (cur = "") then last else Some cur)
      else rsplit_last_go s' (cur +:+ String c EmptyString) last
  end.

Definition rsplit_last (s : string) : option string := rsplit_last_go s "" None.

(** What loading the configuration leaves: the mapping, or the
    IndexError of line 301. *)
Inductive loaded :=
| Conf (conf : gmap string string)
| IndexError.

Section WithFiles.

(** The ConfigParser once it has read a file or a directory of files
    (lines 290-294): [parsed file section option] is [cp.get(section,
    option)], with [None] for NoSectionError and NoOptionError. *)
Variable parsed : string -> string -> string -> option string.

(** Lines 283-308.  The mapping is updated in place; it is returned. *)
Definition _load_object_post_as_copy_conf (conf : gmap string string) : loaded :=
  if bool_decide (is_Some (conf !! "object_post_as_copy")) ||
     negb (bool_decide (is_Some (conf !! "__file__")))
  then Conf conf
  else
    let cp := parsed (default "" (conf !! "__file__")) in
    match cp "pipeline:main" "pipeline" with
    | None => Conf conf
    | Some pipe =>
        match rsplit_last pipe with
        | None => IndexError
        | Some proxy_name =>
            let proxy_section := "app:" +:+ proxy_name in
            match cp proxy_section "object_post_as_copy" with
            | Some v => Conf (<["object_post_as_copy" := v]> conf)
            | None => Conf conf
            end
        end
    end.

(** Lines 273-281: the flag the middleware object gets, or [None] when
    loading raised.  The logger is not modelled. *)
Definition __init__ (conf : gmap string string) : option bool :=
  match _load_object_post_as_copy_conf conf with
  | Conf conf =>
      Some (config_true_value (default "true" (conf !! "object_post_as_copy")))
  | IndexError => None
  end.

(** Lines 517-523: the local options are laid over a copy of the
    global ones, and the middleware is made from the result. *)
Definition filter_factory (global_conf local_conf : gmap string string) : option bool :=
  let conf := local_conf ∪ global_conf in
  __init__ conf.

End WithFiles.
End Config.

(** ** Views of the code used to state its properties

    Nothing here adds behaviour: each definition names a piece of a
    function above, or a condition on its input, and the lemmas below
    prove that the function computes it. *)

Module Views.
Import PyStr Helpers Copy.

(** What the OPTIONS loop does to one header. *)
Definition adapt_header (hv : string * string) : string * string :=
  if bool_decide (lower hv.1 = "allow") && negb (contains "COPY" hv.2)
  then ("Allow", hv.2 +:+ ", COPY")
  else if bool_decide (lower hv.1 = "access-control-allow-methods") &&
          negb (contains "COPY" hv.2)
  then ("Access-Control-Allow-Methods", hv.2 +:+ ", COPY")
  else hv.

(** The shape a container/object path must have: a slash, a container
    name without slash, a slash, an object name; both names non-empty. *)
Definition well_formed_path (p : string) : Prop :=
  exists c o, p = "/" +:+ c +:+ "/" +:+ o /\ c <> "" /\ o <> "" /\ contains "/" c = false.

(** The header value as the check reads it: decoded, with a leading
    slash put in front when there is none. *)
Definition repaired_path (v : string) : string :=
  let p := unquote v in if startswith "/" p then p else "/" +:+ p.

(** The headers [_copy_headers_into] carries over. *)
Definition carried (k : string) : bool :=
  is_sys_or_user_meta "object" k || is_object_transient_sysmeta k ||
  bool_decide (lower k ∈ pass_headers).

(** The body of a copy request is empty or not declared. *)
Definition no_body (req : Request.t) : Prop :=
  Request.content_length req = None \/ Request.content_length req = Some 0.

(** The account the source is read from (lines 441-445). *)
Definition source_account (req : Request.t) (acct : string) : result string :=
  match hget (Request.headers req) "X-Copy-From-Account" with
  | Some a => if truthy (Some a) then check_account_format a else Ok acct
  | None => Ok acct
  end.

(** Lines 447-448. *)
Definition source_path_of (ver src_account_name src_container_name src_obj_name : string)
  : string :=
  "/" +:+ ver +:+ "/" +:+ src_account_name +:+ "/" +:+ src_container_name
      +:+ "/" +:+ src_obj_name.

(** The read request [_get_source_object] builds (lines 385-401). *)
Definition source_request (source_path : string) (req : Request.t) : Request.t :=
  let source_req := Request.copy_get req in
  let source_req :=
    Request.set_headers
      (hpop "X-Backend-Storage-Policy-Index" (Request.headers source_req)) source_req in
  let source_req := Request.set_path_info (quote source_path) source_req in
  let source_req :=
    Request.set_headers (hset "X-Newest" "true" (Request.headers source_req)) source_req in
  let source_req :=
    if Request.post_as_copy req then Request.set_authorize_override true source_req
    else source_req in
  let params := Request.params source_req in
  if bool_decide (params !! "multipart-manifest" = Some "get")
  then Request.set_params (<["format" := "raw"]> params) source_req
  else source_req.

(** What [_get_source_object] hands back for the answer [r]
    (lines 405-415). *)
Definition checked_source (MAX_FILE_SIZE : Z) (r : Response.t) : Response.t :=
  match Response.content_length r with
  | None => HTTPRequestEntityTooLarge
  | Some n => if MAX_FILE_SIZE <? n then HTTPRequestEntityTooLarge else r
  end.

(** The write request before the content type is settled (lines 463-483). *)
Definition sink_request_base (req : Request.t) (source_resp : Response.t) : Request.t :=
  let sink_req := req in
  let params := Request.params sink_req in
  let sink_req :=
    if bool_decide (params !! "multipart-manifest" = Some "get") then
      let params :=
        if hin "X-Static-Large-Object" (Response.headers source_resp)
        then <["multipart-manifest" := "put"]> params else params in
      match hget (Response.headers source_resp) "X-Object-Manifest" with
      | Some manifest =>
          Request.set_params (delete "multipart-manifest" params)
            (Request.set_headers
               (hset "X-Object-Manifest" manifest (Request.headers sink_req)) sink_req)
      | None => Request.set_params params sink_req
      end
    else sink_req in
  let sink_req := Request.set_wsgi_input (Response.app_iter source_resp) sink_req in
  let sink_req :=
    Request.set_content_length (Response.content_length source_resp) sink_req in
  let sink_req := Request.set_etag (Response.etag source_resp) sink_req in
  let sink_req :=
    Request.set_headers (hpop "X-Copy-From" (Request.headers sink_req)) sink_req in
  Request.set_headers (hpop "X-Copy-From-Account" (Request.headers sink_req)) sink_req.

(** The content type is taken from the source when the request names
    none (lines 486-488); a source that has none leaves the write
    without one. *)
Definition sink_request_typed (req : Request.t) (source_resp : Response.t) : Request.t :=
  let sink_req := sink_request_base req source_resp in
  if negb (truthy (hget (Request.headers req) "content-type")) then
    match hget (Response.headers source_resp) "Content-Type" with
    | Some ct =>
        Request.set_headers (hset "Content-Type" ct (Request.headers sink_req)) sink_req
    | None =>
        Request.set_headers (hpop "Content-Type" (Request.headers sink_req)) sink_req
    end
  else sink_req.

(** The fresh-metadata flag as the handler reads it (lines 490-491). *)
Definition fresh_meta_flag (headers : HeaderSet) : bool :=
  config_true_value (default "false" (hget headers "x-fresh-metadata")).

(** The two metadata policies (lines 490-502). *)
Definition apply_policy (req : Request.t) (source_resp : Response.t) (sink_req : Request.t)
  : Request.t :=
  let fresh_meta_flag :=
    config_true_value
      (default "false" (hget (Request.headers sink_req) "x-fresh-metadata")) in
  if fresh_meta_flag || Request.post_as_copy sink_req then
    let condition := fun k => is_sys_meta "object" k in
    let sink_req :=
      Request.set_headers (remove_items (Request.headers sink_req) condition) sink_req in
    Request.set_headers
      (copy_header_subset (Response.headers source_resp) (Request.headers sink_req) condition)
      sink_req
  else
    let sink_req :=
      Request.set_headers
        (_copy_headers_into (Response.headers source_resp) (Request.headers sink_req))
        sink_req in
    Request.set_headers
      (_copy_headers_into (Request.headers req) (Request.headers sink_req)) sink_req.

(** The write request the handler sends (lines 463-502). *)
Definition sink_request (req : Request.t) (source_resp : Response.t) : Request.t :=
  apply_policy req source_resp (sink_request_typed req source_resp).

(** The headers [_create_response_headers] makes once the source path
    is split into account and object path (lines 418-430). *)
Definition copied_from_headers (acct path : string) (source_resp : Response.t)
    (sink_req : Request.t) : gmap string string :=
  let resp_headers : gmap string string := ∅ in
  let resp_headers := <["X-Copied-From-Account" := quote acct]> resp_headers in
  let resp_headers := <["X-Copied-From" := quote path]> resp_headers in
  let resp_headers :=
    match hget (Response.headers source_resp) "last-modified" with
    | Some lm => <["X-Copied-From-Last-Modified" := lm]> resp_headers
    | None => resp_headers
    end in
  map_fold
    (fun k v acc =>
       if is_sys_or_user_meta "object" k || bool_decide (lower k = "x-delete-at")
       then <[k:=v]> acc else acc)
    resp_headers (Request.headers sink_req).

(** What the handler does once the request is validated and the source
    is read, for the answer [src] of [_get_source_object] to the read
    request [sreq] (lines 457-510). *)
Definition write_or_stop (_app_call : Request.t -> WSGIContext) (req : Request.t)
    (acct path : string) (sreq : Request.t) (src : Response.t) : M WSGIContext :=
  if HTTP_MULTIPLE_CHOICES <=? Response.status_int src
  then ([SubRequest sreq], Ok (respond src))
  else
    let sink := sink_request req src in
    ([SubRequest sreq; AppCall sink],
     Ok (_adjust_put_response (_app_call sink) sink (copied_from_headers acct path src sink))).

(** The request passes the checks the handler makes before it reads
    the source (lines 433-448). *)
Definition validated (req : Request.t) (ver src_account_name c o : string) : Prop :=
  no_body req /\
  (exists acct rest,
     Request.split_path req 2 3 = Some [Some ver; Some acct; rest] /\
     source_account req acct = Ok src_account_name) /\
  unpack2 (_check_copy_from_header req) = Ok (c, o) /\
  contains "/" ver = false /\ contains "/" src_account_name = false.

(** The request COPY hands to the PUT handler (lines 360-381), for the
    destination account and names it has checked, and the version it
    read from the path. *)
Definition copy_as_put (self : Middleware) (req : Request.t)
    (ver dest_account dest_container dest_object : string) : Request.t :=
  let req :=
    if hin "Destination-Account" (Request.headers req) then
      Request.set_headers
        (hpop "Destination-Account"
           (hset "X-Copy-From-Account" (account_name self) (Request.headers req))) req
    else req in
  let source := "/" +:+ container_name self +:+ "/" +:+ object_name self in
  let req := Request.set_method "PUT" req in
  let req :=
    Request.set_path_info
      ("/" +:+ ver +:+ "/" +:+ dest_account +:+ "/" +:+ dest_container
           +:+ "/" +:+ dest_object) req in
  let req := Request.set_content_length (Some 0) req in
  let req :=
    Request.set_headers (hset "X-Copy-From" (quote source) (Request.headers req)) req in
  Request.set_headers (hpop "Destination" (Request.headers req)) req.

(** The request post-as-copy hands to the PUT handler (lines 341-352). *)
Definition post_as_put (self : Middleware) (req : Request.t) : Request.t :=
  let req := Request.set_method "PUT" req in
  let req :=
    Request.set_path_info
      ("/v1/" +:+ account_name self +:+ "/" +:+ container_name self
              +:+ "/" +:+ object_name self) req in
  let req := Request.set_content_length (Some 0) req in
  let req := Request.set_headers (hpop "Range" (Request.headers req)) req in
  let req :=
    Request.set_headers
      (hset "X-Copy-From" (quote ("/" +:+ container_name self +:+ "/" +:+ object_name self))
            (Request.headers req)) req in
  let req := Request.set_post_as_copy true req in
  let params := Request.params req in
  let params := <["multipart-manifest" := "get"]> params in
  Request.set_params params req.

(** The account COPY writes to (lines 360-363). *)
Definition destination_account (self : Middleware) (req : Request.t) : result string :=
  if hin "Destination-Account" (Request.headers req) then
    check_account_format (default "" (hget (Request.headers req) "Destination-Account"))
  else Ok (account_name self).

(** The requests the middleware handles as copies (lines 313-332). *)
Definition is_copy_request (self : Middleware) (req : Request.t) : bool :=
  match Request.split_path req 4 4 with
  | Some [Some _; Some _; Some _; Some _] =>
      bool_decide (Request.method req = "PUT") &&
        truthy (hget (Request.headers req) "X-Copy-From")
      || bool_decide (Request.method req = "COPY")
      || bool_decide (Request.method req = "POST") && object_post_as_copy self
  | _ => false
  end.

(** The answer to a copy request that declares a body (lines 434-437). *)
Definition BODY_REFUSED : Response.t :=
  HTTPBadRequest "Copy requests require a zero byte body" "text/plain".

(** ['/'.join(pieces)] *)
Fixpoint join_slash (pieces : list string) : string :=
  match pieces with
  | [] => ""
  | [x] => x
  | x :: rest => x +:+ "/" +:+ join_slash rest
  end.

(** The run of a copy whose source was accepted and whose write was
    made: the read, the write, and the adjusted answer of the write. *)
Definition written (get_response : Request.t -> Response.t)
    (_app_call : Request.t -> WSGIContext) (req : Request.t)
    (src_account_name c o : string) (sreq : Request.t) : M WSGIContext :=
  let src := get_response sreq in
  let sink := sink_request req src in
  ([SubRequest sreq; AppCall sink],
   Ok (_adjust_put_response (_app_call sink) sink
         (copied_from_headers src_account_name (c +:+ "/" +:+ o) src sink))).

(** The request a call hands on. *)
Definition request_of (c : Call) : Request.t :=
  match c with
  | SubRequest r => r
  | AppCall r => r
  end.

(** The path of an object: four parts, none empty, the first three
    free of slashes. *)
Definition object_path (path ver account container obj : string) : Prop :=
  path = "/" +:+ ver +:+ "/" +:+ account +:+ "/" +:+ container +:+ "/" +:+ obj /\
  ver <> "" /\ account <> "" /\ container <> "" /\ obj <> "" /\
  contains "/" ver = false /\ contains "/" account = false /\
  contains "/" container = false.

(** The request the PUT handler gets for a copy on the object path
    whose account, container and object are [a], [c] and [o]
    (lines 325-332): the request itself for a PUT, what COPY makes of
    it, or what post-as-copy makes of it. *)
Definition handed_to_PUT (self : Middleware) (req : Request.t) (a c o : string)
    (req' : Request.t) : Prop :=
  let self := mkMiddleware a c o (object_post_as_copy self) in
  let req1 := Request.set_orig_req_method (Some (Request.method req)) req in
  (Request.method req = "PUT" /\ req' = req1) \/
  (Request.method req = "COPY" /\
   exists ver dest_account dest_container dest_object,
     req' = copy_as_put self req1 ver dest_account dest_container dest_object) \/
  (Request.method req = "POST" /\ req' = post_as_put self req1).

End Views.

(** ** Concrete requests and applications

    A stored object and an application that serves it and accepts every
    write, used to run the handlers on explicit inputs. *)

Module Scenarios.
Import PyStr Helpers Copy Views.

(** swift's default ceiling: 5 GiB and two bytes. *)
Definition ceiling : Z := 5368709122.

Definition stored : Response.t :=
  Response.mk (200, "OK")
    (list_to_map [("content-type", "text/plain"); ("x-object-meta-color", "blue");
                  ("x-object-meta-shape", "round"); ("x-object-sysmeta-ec", "1");
                  ("x-object-transient-sysmeta-t", "7"); ("x-delete-at", "99");
                  ("last-modified", "Wed, 04 Nov 2026 10:00:00 GMT")])
    (Some 5) (Some "5d41402abc4b2a76b9719d911017c592") ["hello"].

Definition serve_stored (_ : Request.t) : Response.t := stored.

Definition created (_ : Request.t) : WSGIContext :=
  mkWSGI (201, "Created") [("Content-Length", "0")] [].

(** PUT /v1/AUTH_a/c2/o2 with X-Copy-From: c/o and metadata of its own. *)
Definition put_copy : Request.t :=
  Request.mk "PUT" "/v1/AUTH_a/c2/o2"
    (list_to_map [("x-copy-from", "c/o"); ("x-object-meta-color", "red");
                  ("x-object-sysmeta-mine", "x")])
    (Some 0) ∅ None [] false None false.

(** The same request asking for fresh metadata. *)
Definition put_copy_fresh : Request.t :=
  Request.set_headers (hset "X-Fresh-Metadata" "true" (Request.headers put_copy)) put_copy.

(** The stored object as a static large object manifest, as a dynamic
    large object manifest, and with the marks of both. *)
Definition stored_slo : Response.t :=
  Response.mk (200, "OK") (hset "X-Static-Large-Object" "True" (Response.headers stored))
    (Some 5) (Response.etag stored) ["hello"].

Definition stored_dlo : Response.t :=
  Response.mk (200, "OK") (hset "X-Object-Manifest" "segments/o_" (Response.headers stored))
    (Some 5) (Response.etag stored) ["hello"].

Definition stored_both : Response.t :=
  Response.mk (200, "OK")
    (hset "X-Object-Manifest" "segments/o_" (Response.headers stored_slo))
    (Some 5) (Response.etag stored) ["hello"].


(** The stored object sent in chunks, with no length; and one byte
    over the ceiling. *)
Definition stored_chunked : Response.t :=
  Response.mk (200, "OK") (Response.headers stored) None (Response.etag stored) ["hello"].

Definition stored_huge : Response.t :=
  Response.mk (200, "OK") (Response.headers stored) (Some (ceiling + 1))
    (Response.etag stored) ["hello"].

(** COPY /v1/AUTH_a/c/o to c2/o2 in account AUTH_b, with a body of
    seven bytes declared. *)
Definition copy_across : Request.t :=
  Request.mk "COPY" "/v1/AUTH_a/c/o"
    (list_to_map [("destination", "c2/o2"); ("destination-account", "AUTH_b")])
    (Some 7) ∅ None [] false None false.

(** PUT with X-Copy-From and a body of seven bytes declared. *)
Definition put_copy_body : Request.t := Request.set_content_length (Some 7) put_copy.

(** A request whose X-Copy-From and Destination both name a container
    and no object. *)
Definition bad_paths : Request.t :=
  Request.mk "PUT" "/v1/AUTH_a/c2/o2"
    (list_to_map [("x-copy-from", "c"); ("destination", "c")])
    (Some 0) ∅ None [] false None false.

(** An answer to OPTIONS. *)
Definition options_answer (_ : Request.t) : WSGIContext :=
  mkWSGI (200, "OK")
    [("Allow", "HEAD, GET, PUT, POST, OPTIONS, DELETE");
     ("Access-Control-Allow-Methods", "GET, PUT");
     ("Content-Length", "0")] [].

Definition options_request : Request.t :=
  Request.mk "OPTIONS" "/v1/AUTH_a/c/o" ∅ None ∅ None [] false None false.

(** POST /v1/AUTH_a/c/o with new metadata, and the middleware object
    as [__call__] leaves it for that request. *)
Definition post_metadata : Request.t :=
  Request.mk "POST" "/v1/AUTH_a/c/o"
    (list_to_map [("x-object-meta-color", "green"); ("x-object-sysmeta-mine", "x")])
    None ∅ None [] false (Some "POST") false.

Definition post_middleware : Middleware := mkMiddleware "AUTH_a" "c" "o" true.

(** A middleware object with post-as-copy on; the names are set anew
    for every request. *)
Definition middleware : Middleware := mkMiddleware "" "" "" true.

(** The copy request with ?multipart-manifest=get. *)
Definition put_copy_manifest : Request.t :=
  Request.set_params {[ "multipart-manifest" := "get" ]} put_copy.

End Scenarios.

(** * Properties *)

(** ** The helpers on small inputs *)

Example lower_ex : PyStr.lower "X-Delete-At" = "x-delete-at".
Proof. reflexivity. Qed.

Example split_ex : PyStr.split_slash "/c/o/x" 2 = [""; "c"; "o/x"]%string.
Proof. reflexivity. Qed.

Example unquote_ex : PyStr.unquote "/c%2Fd/o%20b%zz%" = "/c/d/o b%zz%".
Proof. reflexivity. Qed.

Example quote_ex : PyStr.quote "/c/o b%" = "/c/o%20b%25".
Proof. reflexivity. Qed.

Example split_path_ex1 :
  Helpers.split_path "/v1/a/c/o/x" 4 4 = Some [Some "v1"; Some "a"; Some "c"; Some "o/x"].
Proof. reflexivity. Qed.

Example split_path_ex2 : Helpers.split_path "/v1/a" 2 3 = Some [Some "v1"; Some "a"; None].
Proof. reflexivity. Qed.

Example split_path_ex3 : Helpers.split_path "/c/" 2 2 = None.
Proof. reflexivity. Qed.

Example is_sys_meta_ex :
  Helpers.is_sys_meta "object" "X-Object-Sysmeta-Foo" = true /\
  Helpers.is_sys_meta "object" "x-object-sysmeta-" = false /\
  Helpers.is_user_meta "object" "X-Object-Meta-Foo" = true /\
  Helpers.is_user_meta "object" "X-Object-Manifest" = false.
Proof. repeat split; reflexivity. Qed.

(** ** Strings *)

Section StringFacts.
Import PyStr.

Lemma startswith_COPY_suffix v :
  startswith "COPY" (v +:+ ", COPY") = startswith "COPY" v.
Proof.
  destruct v as [|a [|b [|c [|d v]]]]; simpl;
    repeat (case_decide; subst; simpl); done.
Qed.

Lemma occurrences_COPY_suffix v :
  occurrences "COPY" (v +:+ ", COPY") = S (occurrences "COPY" v).
Proof.
  induction v as [|a v IH]; [reflexivity|].
  change (String a v +:+ ", COPY") with (String a (v +:+ ", COPY")).
  cbn [occurrences]. rewrite IH.
  change (String a (v +:+ ", COPY")) with (String a v +:+ ", COPY").
  rewrite startswith_COPY_suffix. lia.
Qed.

Lemma contains_false_occurrences sub s :
  contains sub s = false -> occurrences sub s = 0%nat.
Proof.
  induction s as [|a s IH]; cbn [contains occurrences];
    destruct (startswith sub _); try done; auto.
Qed.

Lemma occurrences_pos_contains sub s :
  (0 < occurrences sub s)%nat -> contains sub s = true.
Proof.
  destruct (contains sub s) eqn:E; [done|].
  rewrite (contains_false_occurrences _ _ E). lia.
Qed.

Lemma contains_COPY_suffix v : contains "COPY" (v +:+ ", COPY") = true.
Proof. apply occurrences_pos_contains. rewrite occurrences_COPY_suffix. lia. Qed.

End StringFacts.

(** ** The OPTIONS loop *)

Section OptionsFacts.
Import PyStr Helpers Copy Views.

Lemma options_step_insert i header value hs :
  hs !! i = Some (header, value) ->
  options_step i header value hs = <[i := adapt_header (header, value)]> hs.
Proof.
  intros Hi. unfold options_step, adapt_header. cbn [fst snd].
  destruct (bool_decide (lower header = "allow")) eqn:Ha;
    destruct (bool_decide (lower header = "access-control-allow-methods")) eqn:Hb;
    destruct (contains "COPY" value); cbn [andb negb];
    try (symmetry; by apply list_insert_id); try done.
  apply bool_decide_eq_true in Ha, Hb. rewrite Ha in Hb. discriminate.
Qed.

Lemma options_loop_spec n i hs :
  (n + i = length hs)%nat ->
  options_loop n i hs = take i hs ++ (adapt_header <$> drop i hs).
Proof.
  revert i hs. induction n as [|n IH]; intros i hs Hlen.
  - cbn. rewrite drop_ge by lia. rewrite take_ge by lia. by rewrite app_nil_r.
  - cbn [options_loop].
    destruct (hs !! i) as [[header value]|] eqn:Hi.
    2:{ apply lookup_ge_None in Hi. lia. }
    rewrite (options_step_insert _ _ _ _ Hi).
    rewrite IH by (rewrite length_insert; lia).
    pose proof (lookup_lt_Some _ _ _ Hi) as Hlt.
    rewrite (take_S_r _ i (adapt_header (header, value)))
      by (by apply list_lookup_insert_eq).
    rewrite take_insert_ge by lia. rewrite drop_insert_lt by lia.
    rewrite (drop_S _ _ _ Hi). cbn. by rewrite <- app_assoc.
Qed.

Lemma options_loop_map hs :
  options_loop (length hs) 0 hs = adapt_header <$> hs.
Proof. rewrite options_loop_spec by lia. by rewrite take_0, drop_0. Qed.

Lemma adapt_header_has_COPY h v :
  contains "COPY" v = true -> adapt_header (h, v) = (h, v).
Proof.
  intros Hc. unfold adapt_header. cbn [fst snd]. rewrite Hc.
  by rewrite !andb_false_r.
Qed.

Lemma adapt_header_idemp hv : adapt_header (adapt_header hv) = adapt_header hv.
Proof.
  destruct hv as [h v]. unfold adapt_header at 2 3. cbn [fst snd].
  repeat case_match; try apply adapt_header_has_COPY, contains_COPY_suffix.
  unfold adapt_header. cbn [fst snd]. by repeat case_match.
Qed.

Lemma adapt_OPTIONS_idemp ctx : adapt_OPTIONS (adapt_OPTIONS ctx) = adapt_OPTIONS ctx.
Proof.
  unfold adapt_OPTIONS at 2.
  destruct (is_success (_get_status_int ctx)) eqn:Es.
  - unfold adapt_OPTIONS, _get_status_int. cbn [_response_status _response_headers app_resp].
    unfold _get_status_int in Es. rewrite Es.
    rewrite !options_loop_map. f_equal.
    rewrite <- list_fmap_compose. apply list_fmap_ext. intros _ hv _. apply adapt_header_idemp.
  - unfold adapt_OPTIONS. by rewrite Es.
Qed.

End OptionsFacts.

(** ** Splitting paths *)

Section SplitFacts.
Import PyStr Helpers Copy Views.

Lemma append_cons a s t : String a s +:+ t = String a (s +:+ t).
Proof. reflexivity. Qed.

Lemma append_empty_l s : "" +:+ s = s.
Proof. reflexivity. Qed.

Lemma append_empty_r s : s +:+ "" = s.
Proof. induction s as [|a s IH]; [done|]. by rewrite append_cons, IH. Qed.

Lemma append_assoc s t u : (s +:+ t) +:+ u = s +:+ (t +:+ u).
Proof. induction s as [|a s IH]; [done|]. by rewrite !append_cons, IH. Qed.

Lemma contains_slash_cons a s :
  contains "/" (String a s) = bool_decide (a = "/"%char) || contains "/" s.
Proof.
  cbn [contains startswith]. destruct (decide ("/"%char = a)) as [<-|Hne]; [done|].
  rewrite bool_decide_eq_false_2 by congruence. done.
Qed.

Lemma contains_slash_app s t :
  contains "/" (s +:+ t) = contains "/" s || contains "/" t.
Proof.
  induction s as [|a s IH]; [done|].
  change (String a s +:+ t) with (String a (s +:+ t)).
  rewrite !contains_slash_cons, IH. by rewrite orb_assoc.
Qed.

(** A string without a slash is one piece. *)
Lemma split_go_no_slash s n cur :
  contains "/" s = false -> split_go s n cur = [cur +:+ s].
Proof.
  revert n cur. induction s as [|a s IH]; intros n cur Hs.
  - cbn. by rewrite append_empty_r.
  - rewrite contains_slash_cons in Hs. apply orb_false_elim in Hs as [Ha Hs].
    apply bool_decide_eq_false in Ha.
    destruct n as [|n]; [done|]. cbn [split_go].
    rewrite decide_False by done. rewrite IH by done.
    by rewrite append_assoc.
Qed.

(** The first slash ends the first piece. *)
Lemma split_go_first c rest n cur :
  contains "/" c = false ->
  split_go (c +:+ "/" +:+ rest) (S n) cur = (cur +:+ c) :: split_go rest n "".
Proof.
  revert cur. induction c as [|a c IH]; intros cur Hc.
  - rewrite append_empty_l, append_cons, append_empty_l, append_empty_r.
    cbn [split_go]. by rewrite decide_True.
  - rewrite contains_slash_cons in Hc. apply orb_false_elim in Hc as [Ha Hc].
    apply bool_decide_eq_false in Ha.
    change (String a c +:+ "/" +:+ rest) with (String a (c +:+ "/" +:+ rest)).
    cbn [split_go]. rewrite decide_False by done. rewrite IH by done.
    by rewrite append_assoc.
Qed.

Lemma split_go_leading rest n :
  split_go ("/" +:+ rest) (S n) "" = "" :: split_go rest n "".
Proof. exact (split_go_first "" rest n "" eq_refl). Qed.

Lemma split_go_0 s cur : split_go s 0 cur = [cur +:+ s].
Proof. destruct s; [|done]. cbn. by rewrite append_empty_r. Qed.

(** Every string either has no slash or reads as a slash-free piece, a
    slash and a rest. *)
Lemma first_slash s :
  contains "/" s = false \/
  exists c rest, s = c +:+ "/" +:+ rest /\ contains "/" c = false.
Proof.
  induction s as [|a s IH]; [by left|].
  destruct (decide (a = "/"%char)) as [->|Ha].
  - right. by exists "", s.
  - destruct IH as [IH|(c & rest & -> & Hc)].
    + left. rewrite contains_slash_cons, IH.
      by rewrite bool_decide_eq_false_2.
    + right. exists (String a c), rest. split; [done|].
      rewrite contains_slash_cons, Hc. by rewrite bool_decide_eq_false_2.
Qed.

Lemma startswith_slash p :
  startswith "/" p = true -> exists rest, p = "/" +:+ rest.
Proof.
  destruct p as [|a p]; [done|]. cbn. case_decide; [|done]. subst. by exists p.
Qed.

Lemma split_path_eq path minsegs maxsegs :
  (0 < maxsegs)%nat -> (minsegs <= maxsegs)%nat ->
  split_path path minsegs maxsegs =
    let segs := split_slash path maxsegs in
    if negb (bool_decide (head segs = Some "")) || (length segs <? S minsegs)%nat ||
       (S maxsegs <? length segs)%nat || bool_decide ("" ∈ take minsegs (drop 1 segs))
    then None
    else Some ((Some <$> take maxsegs (drop 1 segs)) ++
               replicate (maxsegs - length (take maxsegs (drop 1 segs))) None).
Proof.
  intros Hpos Hle. unfold split_path.
  destruct (decide (maxsegs = 0%nat)); [lia|].
  destruct (decide (maxsegs < minsegs)%nat); [lia|].
  cbn zeta. replace (S minsegs - 1)%nat with minsegs by lia.
  replace (S maxsegs - 1)%nat with maxsegs by lia. done.
Qed.

Lemma split_path_2_2_ok c o :
  c <> "" -> o <> "" -> contains "/" c = false ->
  split_path ("/" +:+ c +:+ "/" +:+ o) 2 2 = Some [Some c; Some o].
Proof.
  intros Hc Ho Hs. rewrite split_path_eq by lia. unfold split_slash.
  rewrite split_go_leading.
  rewrite (split_go_first c o 0 "") by done. rewrite split_go_0.
  cbn. rewrite !append_empty_l. rewrite (bool_decide_eq_true_2 (Some "" = Some "")) by done.
  rewrite bool_decide_eq_false_2; [done|].
  rewrite !elem_of_cons, elem_of_nil. intros [?|[?|[]]]; congruence.
Qed.

Lemma split_path_2_2_inv p parts :
  startswith "/" p = true ->
  split_path p 2 2 = Some parts ->
  exists c o, parts = [Some c; Some o] /\ p = "/" +:+ c +:+ "/" +:+ o /\
              c <> "" /\ o <> "" /\ contains "/" c = false.
Proof.
  intros [rest ->]%startswith_slash. rewrite split_path_eq by lia. unfold split_slash.
  rewrite split_go_leading.
  destruct (first_slash rest) as [Hns|(c & o & -> & Hc)].
  - rewrite split_go_no_slash by done. cbn.
    rewrite (bool_decide_eq_true_2 (Some "" = Some "")) by done. done.
  - rewrite (split_go_first c o 0 "") by done. rewrite split_go_0. cbn.
    rewrite !append_empty_l. rewrite (bool_decide_eq_true_2 (Some "" = Some "")) by done.
    case_bool_decide as Hin; [done|]. cbn. intros [= <-].
    exists c, o. rewrite !elem_of_cons, elem_of_nil in Hin.
    repeat split; try done; intros ->; tauto.
Qed.

Lemma split_path_2_2_malformed p :
  startswith "/" p = true -> ~ well_formed_path p -> split_path p 2 2 = None.
Proof.
  intros Hp Hwf. destruct (split_path p 2 2) as [parts|] eqn:E; [|done].
  destruct (split_path_2_2_inv _ _ Hp E) as (c & o & _ & ? & ? & ? & ?).
  destruct Hwf. by exists c, o.
Qed.

(** Every piece but the one after the last allowed split is free of
    slashes. *)
Lemma split_go_pieces s n cur i piece :
  contains "/" cur = false ->
  split_go s n cur !! i = Some piece -> (i < n)%nat -> contains "/" piece = false.
Proof.
  revert n cur i. induction s as [|a s IH]; intros n cur i Hcur Hi Hlt.
  - destruct i; [|done]. cbn in Hi. congruence.
  - destruct n as [|n]; [lia|]. cbn [split_go] in Hi.
    destruct (decide (a = "/"%char)) as [->|Ha].
    + destruct i as [|i]; [cbn in Hi; congruence|].
      apply (IH n "" i); [done|done|lia].
    + apply (IH (S n) (cur +:+ String a "") i); [|done|done].
      rewrite contains_slash_app, Hcur, contains_slash_cons.
      by rewrite bool_decide_eq_false_2.
Qed.

(** The parts [split_path] returns: the required ones are not empty,
    and all but the last possible one are free of slashes. *)
Lemma split_path_Some path minsegs maxsegs parts j x :
  (0 < maxsegs)%nat -> (minsegs <= maxsegs)%nat ->
  split_path path minsegs maxsegs = Some parts ->
  parts !! j = Some (Some x) ->
  ((S j < maxsegs)%nat -> contains "/" x = false) /\ ((j < minsegs)%nat -> x <> "").
Proof.
  intros Hpos Hle. rewrite split_path_eq by done. cbn zeta.
  set (segs := split_slash path maxsegs).
  destruct (_ || _) eqn:Hbad; [done|]. intros [= <-] Hj.
  apply orb_false_elim in Hbad as [_ Hempty].
  apply bool_decide_eq_false in Hempty.
  assert (segs !! S j = Some x /\ (j < maxsegs)%nat) as [Hseg Hjm].
  { destruct (decide (j < length (take maxsegs (drop 1 segs)))%nat) as [Hlt|Hge].
    - rewrite lookup_app_l in Hj by (by rewrite length_fmap).
      rewrite list_lookup_fmap in Hj.
      destruct (take maxsegs (drop 1 segs) !! j) as [y|] eqn:Hy; [|done].
      cbn in Hj. injection Hj as ->.
      apply lookup_take_Some in Hy as [Hy ?]. by rewrite lookup_drop in Hy.
    - rewrite lookup_app_r in Hj by (rewrite length_fmap; lia).
      apply lookup_replicate in Hj as [? _]. done. }

  split.
  - intros Hlt. apply (split_go_pieces path maxsegs "" (S j)); [done|exact Hseg|lia].
  - intros Hlt ->. apply Hempty. apply list_elem_of_lookup. exists j.
    rewrite lookup_take_lt by done. by rewrite lookup_drop.
Qed.

(** The source path splits back into what it was made of. *)
Lemma split_source_path ver acct c o :
  contains "/" ver = false -> contains "/" acct = false ->
  take 2 (drop 2 (split_slash (source_path_of ver acct c o) 3)) = [acct; c +:+ "/" +:+ o].
Proof.
  intros Hv Ha. unfold source_path_of, split_slash.
  rewrite split_go_leading. rewrite (split_go_first ver _ 1 "") by done.
  rewrite (split_go_first acct _ 0 "") by done. by rewrite split_go_0.
Qed.

Lemma _create_response_headers_ok ver acct c o source_resp sink_req :
  contains "/" ver = false -> contains "/" acct = false ->
  _create_response_headers (source_path_of ver acct c o) source_resp sink_req =
    Ok (copied_from_headers acct (c +:+ "/" +:+ o) source_resp sink_req).
Proof.
  intros Hv Ha. unfold _create_response_headers.
  by rewrite split_source_path.
Qed.

Lemma split_go_nonempty s n cur : split_go s n cur <> [].
Proof.
  revert n cur. induction s as [|a s IH]; intros n cur; [done|].
  destruct n as [|n]; [done|]. cbn [split_go]. case_decide; [done|apply IH].
Qed.

(** Joining the pieces gives the string back. *)
Lemma join_split_go s n cur : join_slash (split_go s n cur) = cur +:+ s.
Proof.
  revert n cur. induction s as [|a s IH]; intros n cur.
  - cbn. by rewrite append_empty_r.
  - destruct n as [|n]; [done|]. cbn [split_go].
    destruct (decide (a = "/"%char)) as [->|Ha].
    + specialize (IH n ""). pose proof (split_go_nonempty s n "") as Hne.
      destruct (split_go s n "") as [|x l]; [done|].
      change (join_slash (cur :: x :: l)) with (cur +:+ "/" +:+ join_slash (x :: l)).
      by rewrite IH.
    + rewrite IH. by rewrite append_assoc.
Qed.

(** An object path is its four parts joined by slashes. *)
Lemma split_path_4_4_inv path ver a c o :
  split_path path 4 4 = Some [Some ver; Some a; Some c; Some o] ->
  path = "/" +:+ ver +:+ "/" +:+ a +:+ "/" +:+ c +:+ "/" +:+ o.
Proof.
  intros Hsplit. pose proof (join_split_go path 4 "") as Hjoin.
  rewrite split_path_eq in Hsplit by lia. cbn zeta in Hsplit.
  fold (split_slash path 4) in Hjoin.
  destruct (split_slash path 4) as [|s0 [|s1 [|s2 [|s3 [|s4 [|s5 l]]]]]];
    cbn in Hsplit; try done; try (case_bool_decide; done).
  case_bool_decide as H0; [|done]. cbn in Hsplit. case_bool_decide; [done|].
  injection H0 as ->. injection Hsplit as -> -> -> ->.
  rewrite append_empty_l in Hjoin. rewrite <- Hjoin. reflexivity.
Qed.

Lemma split_path_1_2_of_object_path ver rest :
  ver <> "" -> contains "/" ver = false -> rest <> "" ->
  split_path ("/" +:+ ver +:+ "/" +:+ rest) 1 2 = Some [Some ver; Some rest].
Proof.
  intros Hne Hv Hr. rewrite split_path_eq by lia. unfold split_slash.
  rewrite split_go_leading, (split_go_first ver rest 0 "") by done.
  rewrite split_go_0. cbn. rewrite !append_empty_l.
  rewrite (bool_decide_eq_true_2 (Some "" = Some "")) by done.
  rewrite bool_decide_eq_false_2; [done|].
  rewrite elem_of_cons, elem_of_nil. intros [?|[]]; congruence.
Qed.

Lemma split_path_2_3_of_object_path ver acct rest :
  ver <> "" -> contains "/" ver = false ->
  acct <> "" -> contains "/" acct = false ->
  split_path ("/" +:+ ver +:+ "/" +:+ acct +:+ "/" +:+ rest) 2 3 =
    Some [Some ver; Some acct; Some rest].
Proof.
  intros Hne Hv Hane Ha. rewrite split_path_eq by lia. unfold split_slash.
  rewrite split_go_leading, (split_go_first ver _ 1 "") by done.
  rewrite (split_go_first acct rest 0 "") by done.
  rewrite split_go_0. cbn. rewrite !append_empty_l.
  rewrite (bool_decide_eq_true_2 (Some "" = Some "")) by done.
  rewrite bool_decide_eq_false_2; [done|].
  rewrite !elem_of_cons, elem_of_nil. intros [?|[?|[]]]; congruence.
Qed.

(** urllib's quote and unquote. *)
Lemma unquote_safe c rest :
  always_safe c = true -> unquote (String c rest) = String c (unquote rest).
Proof.
  intros Hc. cbn [unquote]. destruct (decide (c = "%"%char)) as [->|]; [|done].
  by vm_compute in Hc.
Qed.

Lemma unquote_escaped c rest :
  always_safe c = false -> unquote (quote_ascii c +:+ rest) = String c (unquote rest).
Proof.
  intros Hc. unfold quote_ascii. rewrite Hc.
  destruct c as [[] [] [] [] [] [] [] []]; try (by vm_compute in Hc); reflexivity.
Qed.

(** Decoding undoes encoding. *)
Lemma unquote_quote s : unquote (quote s) = s.
Proof.
  induction s as [|c s IH]; [done|]. cbn [quote].
  destruct (always_safe c) eqn:Hc.
  - unfold quote_ascii. rewrite Hc. rewrite append_cons, append_empty_l.
    by rewrite unquote_safe, IH.
  - by rewrite unquote_escaped, IH.
Qed.

End SplitFacts.

(** ** Path headers *)

Section PathHeaderFacts.
Import PyStr Helpers Copy Views.

Lemma repaired_path_slash v : startswith "/" (repaired_path v) = true.
Proof. unfold repaired_path. cbn zeta. by destruct (startswith "/" (unquote v)) eqn:E. Qed.

Lemma _check_path_header_malformed req name msg v :
  hget (Request.headers req) name = Some v ->
  ~ well_formed_path (repaired_path v) ->
  _check_path_header req name 2 msg = Raise (HTTPException (HTTPPreconditionFailed msg)).
Proof.
  intros Hv Hwf. unfold _check_path_header. rewrite Hv.
  fold (repaired_path v).
  by rewrite (split_path_2_2_malformed _ (repaired_path_slash v) Hwf).
Qed.

Lemma _check_path_header_well_formed req name msg v c o :
  hget (Request.headers req) name = Some v ->
  repaired_path v = "/" +:+ c +:+ "/" +:+ o ->
  c <> "" -> o <> "" -> contains "/" c = false ->
  _check_path_header req name 2 msg = Ok [Some c; Some o].
Proof.
  intros Hv Hp Hc Ho Hs. unfold _check_path_header. rewrite Hv.
  fold (repaired_path v). rewrite Hp. by rewrite split_path_2_2_ok.
Qed.

Lemma _check_path_header_inv req name msg parts :
  _check_path_header req name 2 msg = Ok parts ->
  exists v c o, hget (Request.headers req) name = Some v /\
    repaired_path v = "/" +:+ c +:+ "/" +:+ o /\ parts = [Some c; Some o] /\
    c <> "" /\ o <> "" /\ contains "/" c = false.
Proof.
  unfold _check_path_header. destruct (hget _ name) as [v|] eqn:Hv; [|done].
  fold (repaired_path v).
  destruct (split_path (repaired_path v) 2 2) as [ps|] eqn:E; [|done].
  intros [= <-].
  destruct (split_path_2_2_inv _ _ (repaired_path_slash v) E) as (c & o & ? & ? & ? & ? & ?).
  by exists v, c, o.
Qed.

End PathHeaderFacts.

(** ** Copying headers *)

Section HeaderFacts.
Import PyStr Helpers Copy Views.

(** A loop that writes the selected items of one mapping into another:
    a selected key gets the value of the source when the source has
    the key; every other key keeps what the target had. *)
Lemma fold_insert_lookup (P : string -> bool) (from_h to_h : gmap string string) k :
  map_fold (fun k v acc => if P k then <[k:=v]> acc else acc) to_h from_h !! k =
    if P k then
      match from_h !! k with
      | Some v => Some v
      | None => to_h !! k
      end
    else to_h !! k.
Proof.
  apply (map_fold_weak_ind
           (fun r m => r !! k = if P k then match m !! k with
                                            | Some v => Some v
                                            | None => to_h !! k
                                            end
                                else to_h !! k)).
  - rewrite lookup_empty. by destruct (P k).
  - intros i x m r Hi IH. destruct (decide (i = k)) as [->|Hne].
    + rewrite lookup_insert_eq. destruct (P k); [by rewrite lookup_insert_eq|].
      by rewrite IH.
    + rewrite (lookup_insert_ne m) by done.
      destruct (P i); [by rewrite lookup_insert_ne|done].
Qed.

Lemma _copy_headers_into_lookup from_h to_h k :
  _copy_headers_into from_h to_h !! k =
    if carried k then
      match from_h !! k with
      | Some v => Some v
      | None => to_h !! k
      end
    else to_h !! k.
Proof. apply (fold_insert_lookup carried). Qed.

Lemma copy_header_subset_lookup from_h to_h condition k :
  copy_header_subset from_h to_h condition !! k =
    if condition k then
      match from_h !! k with
      | Some v => Some v
      | None => to_h !! k
      end
    else to_h !! k.
Proof. apply fold_insert_lookup. Qed.

Lemma remove_items_lookup headers condition k :
  remove_items headers condition !! k = if condition k then None else headers !! k.
Proof.
  unfold remove_items. rewrite map_lookup_filter.
  destruct (headers !! k) as [v|]; cbn; [|by destruct (condition k)].
  destruct (condition k); [rewrite option_guard_False|rewrite option_guard_True]; done.
Qed.

Lemma hget_hset_eq h name v : hget (hset name v h) name = Some v.
Proof. apply lookup_insert_eq. Qed.

Lemma hset_lookup_ne h name v k :
  k <> lower name -> hset name v h !! k = h !! k.
Proof. intros. by apply lookup_insert_ne. Qed.

Lemma hpop_lookup_ne h name k :
  k <> lower name -> hpop name h !! k = h !! k.
Proof. intros. by apply lookup_delete_ne. Qed.

(** Names of one kind are not names of another. *)
Lemma startswith_cons a p b s :
  startswith (String a p) (String b s) = bool_decide (a = b) && startswith p s.
Proof. cbn [startswith]. by case_decide; [rewrite bool_decide_eq_true_2|rewrite bool_decide_eq_false_2]. Qed.

(** Two prefixes of one string agree as far as the shorter one goes. *)
Lemma startswith_agree p q s :
  startswith p s = true -> startswith q s = true ->
  startswith p q = true \/ startswith q p = true.
Proof.
  revert q s. induction p as [|a p IH]; intros q s Hp Hq; [by left|].
  destruct q as [|b q]; [by right|].
  destruct s as [|c s]; [done|].
  rewrite startswith_cons in Hp, Hq.
  apply andb_true_iff in Hp as [Ha Hp], Hq as [Hb Hq].
  apply bool_decide_eq_true in Ha, Hb. subst.
  rewrite !startswith_cons, !bool_decide_eq_true_2 by done.
  by apply (IH q s).
Qed.

Lemma is_sys_meta_prefix k :
  is_sys_meta "object" k = true -> startswith "x-object-sysmeta-" (lower k) = true.
Proof. unfold is_sys_meta. by case_match. Qed.

Lemma is_user_meta_prefix k :
  is_user_meta "object" k = true -> startswith "x-object-meta-" (lower k) = true.
Proof. unfold is_user_meta. by case_match. Qed.

Lemma is_object_transient_sysmeta_prefix k :
  is_object_transient_sysmeta k = true ->
  startswith "x-object-transient-sysmeta-" (lower k) = true.
Proof. unfold is_object_transient_sysmeta. by case_match. Qed.

Lemma sys_not_user k : is_sys_meta "object" k = true -> is_user_meta "object" k = false.
Proof.
  intros Hs%is_sys_meta_prefix. destruct (is_user_meta "object" k) eqn:Hu; [|done].
  apply is_user_meta_prefix in Hu.
  by destruct (startswith_agree _ _ _ Hs Hu).
Qed.

Lemma sys_not_transient k :
  is_sys_meta "object" k = true -> is_object_transient_sysmeta k = false.
Proof.
  intros Hs%is_sys_meta_prefix. destruct (is_object_transient_sysmeta k) eqn:Hu; [|done].
  apply is_object_transient_sysmeta_prefix in Hu.
  by destruct (startswith_agree _ _ _ Hs Hu).
Qed.

End HeaderFacts.

(** ** The write request *)

(** Reading a field of an updated request. *)
Ltac simpl_request :=
  cbn [Request.method Request.path_info Request.headers Request.content_length
       Request.params Request.etag Request.wsgi_input Request.post_as_copy
       Request.orig_req_method Request.authorize_override
       Request.set_method Request.set_path_info Request.set_headers
       Request.set_content_length Request.set_params Request.set_etag
       Request.set_wsgi_input Request.set_post_as_copy Request.set_orig_req_method
       Request.set_authorize_override] in *.

Section SinkFacts.
Import PyStr Helpers Copy Views.

Lemma carried_cases k :
  carried k = true <->
  is_sys_meta "object" k = true \/ is_user_meta "object" k = true \/
  is_object_transient_sysmeta k = true \/ lower k = "x-delete-at".
Proof.
  unfold carried, is_sys_or_user_meta, pass_headers.
  rewrite !orb_true_iff, bool_decide_eq_true, list_elem_of_singleton. tauto.
Qed.

(** A key the handler writes by name is of no carried kind. *)
Lemma carried_not_named k :
  carried k = true ->
  k <> "x-object-manifest" /\ k <> "x-copy-from" /\ k <> "x-copy-from-account" /\
  k <> "content-type" /\ k <> "x-fresh-metadata".
Proof. intros Hk. repeat split; intros ->; by vm_compute in Hk. Qed.

Lemma is_sys_meta_carried k : is_sys_meta "object" k = true -> carried k = true.
Proof. intros. apply carried_cases. by left. Qed.

(** Before the policy is applied, the write request has the headers of
    the request, but for four names. *)
Lemma sink_request_typed_headers req source_resp k :
  k <> "x-object-manifest" -> k <> "x-copy-from" -> k <> "x-copy-from-account" ->
  k <> "content-type" ->
  Request.headers (sink_request_typed req source_resp) !! k = Request.headers req !! k.
Proof.
  intros H1 H2 H3 H4. unfold sink_request_typed, sink_request_base.
  repeat case_match; simpl_request;
    repeat ((rewrite hset_lookup_ne by done) || (rewrite hpop_lookup_ne by done)); done.
Qed.

Lemma sink_request_typed_post_as_copy req source_resp :
  Request.post_as_copy (sink_request_typed req source_resp) = Request.post_as_copy req.
Proof. unfold sink_request_typed, sink_request_base. by repeat case_match. Qed.

Lemma sink_request_typed_path_info req source_resp :
  Request.path_info (sink_request_typed req source_resp) = Request.path_info req.
Proof. unfold sink_request_typed, sink_request_base. by repeat case_match. Qed.

Lemma sink_request_typed_fresh req source_resp :
  fresh_meta_flag (Request.headers (sink_request_typed req source_resp)) =
  fresh_meta_flag (Request.headers req).
Proof.
  unfold fresh_meta_flag, hget.
  by rewrite (sink_request_typed_headers req source_resp (lower "x-fresh-metadata")).
Qed.

(** The policy as a case on the flag and the mark the request carries. *)
Lemma sink_request_headers req source_resp :
  Request.headers (sink_request req source_resp) =
    let typed := Request.headers (sink_request_typed req source_resp) in
    if fresh_meta_flag (Request.headers req) || Request.post_as_copy req then
      copy_header_subset (Response.headers source_resp)
        (remove_items typed (fun k => is_sys_meta "object" k))
        (fun k => is_sys_meta "object" k)
    else
      _copy_headers_into (Request.headers req)
        (_copy_headers_into (Response.headers source_resp) typed).
Proof.
  unfold sink_request, apply_policy. cbn zeta.
  fold (fresh_meta_flag (Request.headers (sink_request_typed req source_resp))).
  rewrite sink_request_typed_fresh, sink_request_typed_post_as_copy.
  by destruct (_ || _).
Qed.

Lemma sink_request_post_as_copy req source_resp :
  Request.post_as_copy (sink_request req source_resp) = Request.post_as_copy req.
Proof.
  unfold sink_request, apply_policy. cbn zeta.
  destruct (_ || _); simpl_request; apply sink_request_typed_post_as_copy.
Qed.

Lemma sink_request_path_info req source_resp :
  Request.path_info (sink_request req source_resp) = Request.path_info req.
Proof.
  unfold sink_request, apply_policy. cbn zeta.
  destruct (_ || _); simpl_request; apply sink_request_typed_path_info.
Qed.

Lemma sink_request_params req source_resp :
  Request.params (sink_request req source_resp) =
  Request.params (sink_request_base req source_resp).
Proof.
  unfold sink_request, apply_policy, sink_request_typed. cbn zeta.
  by repeat case_match.
Qed.

(** A header of no carried kind is left as the typed request has it. *)
Lemma sink_request_plain req source_resp k :
  carried k = false ->
  Request.headers (sink_request req source_resp) !! k =
  Request.headers (sink_request_typed req source_resp) !! k.
Proof.
  intros Hk. rewrite sink_request_headers. cbn zeta.
  assert (is_sys_meta "object" k = false) as Hs.
  { destruct (is_sys_meta "object" k) eqn:E; [|done].
    by rewrite (is_sys_meta_carried _ E) in Hk. }
  destruct (_ || _).
  - by rewrite copy_header_subset_lookup, Hs, remove_items_lookup, Hs.
  - by rewrite !_copy_headers_into_lookup, Hk.
Qed.

(** The answer the handler goes on with. *)
Lemma checked_source_too_large MAX_FILE_SIZE r :
  Response.content_length r = None \/
  (exists n, Response.content_length r = Some n /\ MAX_FILE_SIZE < n) ->
  checked_source MAX_FILE_SIZE r = HTTPRequestEntityTooLarge.
Proof.
  unfold checked_source. intros [-> | (n & -> & Hn)]; [done|].
  by rewrite (proj2 (Z.ltb_lt _ _) Hn).
Qed.

Lemma checked_source_fits MAX_FILE_SIZE r n :
  Response.content_length r = Some n -> n <= MAX_FILE_SIZE ->
  checked_source MAX_FILE_SIZE r = r.
Proof.
  unfold checked_source. intros -> Hn. by rewrite (proj2 (Z.ltb_ge _ _) Hn).
Qed.

End SinkFacts.

(** ** The PUT handler *)

Section PutFacts.
Import PyStr Helpers Copy Views.

Variable get_response : Request.t -> Response.t.
Variable _app_call : Request.t -> WSGIContext.
Variable MAX_FILE_SIZE : Z.

Local Abbreviation handle_PUT := (Copy.handle_PUT get_response _app_call MAX_FILE_SIZE).
Local Abbreviation _get_source_object := (Copy._get_source_object get_response MAX_FILE_SIZE).

Lemma bind_lift_Ok {A B} (a : A) (k : A -> M B) : bind (lift (Ok a)) k = k a.
Proof. unfold bind, lift. by destruct (k a). Qed.

Lemma _get_source_object_eq source_path req :
  _get_source_object source_path req =
    ([SubRequest (source_request source_path req)],
     Ok (checked_source MAX_FILE_SIZE (get_response (source_request source_path req)))).
Proof.
  unfold Copy._get_source_object, get_source_resp. fold (source_request source_path req).
  cbn [bind emit ret]. unfold checked_source.
  destruct (Response.content_length _) as [n|]; [|done].
  by destruct (MAX_FILE_SIZE <? n).
Qed.

Lemma check_account_format_Ok name a :
  check_account_format name = Ok a -> a = name /\ name <> "" /\ contains "/" name = false.
Proof.
  unfold check_account_format. case_bool_decide; [done|].
  destruct (contains "/" name); [done|]. by intros [= <-].
Qed.

Lemma source_account_Ok req acct a :
  contains "/" acct = false ->
  source_account req acct = Ok a -> contains "/" a = false.
Proof.
  intros Hacct. unfold source_account.
  destruct (hget _ _) as [x|]; [|by intros [= <-]].
  destruct (truthy (Some x)); [|by intros [= <-]].
  by intros (-> & _ & ?)%check_account_format_Ok.
Qed.

(** The handler with the write request named as a whole. *)
Lemma handle_PUT_unfold req :
  handle_PUT req =
    if match Request.content_length req with
       | Some n => negb (n =? 0)
       | None => false
       end
    then ret (respond (HTTPBadRequest "Copy requests require a zero byte body" "text/plain"))
    else
      ' (ver, acct) <~ lift
          match Request.split_path req 2 3 with
          | Some [Some ver; Some acct; _rest] => Ok (ver, acct)
          | _ => Raise ValueError
          end;
      src_account_name <~ lift (source_account req acct);
      ' (c, o) <~ lift (unpack2 (_check_copy_from_header req));
      let source_path := source_path_of ver src_account_name c o in
      source_resp <~ _get_source_object source_path req;
      if HTTP_MULTIPLE_CHOICES <=? Response.status_int source_resp
      then ret (respond source_resp)
      else
        let sink_req := sink_request req source_resp in
        resp_headers <~ lift (_create_response_headers source_path source_resp sink_req);
        send_put_req _app_call sink_req resp_headers.
Proof. reflexivity. Qed.

(** Either the request is refused before anything is read, or it is
    validated. *)
Lemma handle_PUT_early req :
  calls (handle_PUT req) = [] \/ exists ver src_account_name c o, validated req ver src_account_name c o.
Proof.
  assert (no_body req \/ exists n, Request.content_length req = Some n /\ n <> 0) as [Hb|Hb].
  { unfold no_body. destruct (Request.content_length req) as [n|]; [|left; by left].
    destruct (decide (n = 0)) as [->|]; [left; by right|]. right. by exists n. }
  2:{ left. destruct Hb as (n & Hn & Hne). rewrite handle_PUT_unfold, Hn.
      by rewrite (proj2 (Z.eqb_neq n 0) Hne). }
  rewrite handle_PUT_unfold.
  replace (match Request.content_length req with
           | Some n => negb (n =? 0)
           | None => false
           end) with false by (by destruct Hb as [-> | ->]).
  destruct (Request.split_path req 2 3) as [[|[ver|] [|[acct|] [|rest [|]]]]|] eqn:Hs;
    try (by left).
  cbv beta iota. rewrite bind_lift_Ok.
  destruct (source_account req acct) as [a|] eqn:Ha; [|by left].
  rewrite bind_lift_Ok.
  destruct (unpack2 (_check_copy_from_header req)) as [[c o]|] eqn:Hc; [|by left].
  right. exists ver, a, c, o.
  destruct (split_path_Some _ 2 3 _ 0 ver ltac:(lia) ltac:(lia) Hs eq_refl) as [Hv _].
  destruct (split_path_Some _ 2 3 _ 1 acct ltac:(lia) ltac:(lia) Hs eq_refl) as [Hacct _].
  repeat split; try done.
  - by exists acct, rest.
  - apply Hv. lia.
  - apply (source_account_Ok req acct); [apply Hacct; lia|done].
Qed.

(** Once the request is validated, the handler is a read, two checks
    on its answer, and a write. *)
Lemma handle_PUT_validated req ver src_account_name c o :
  validated req ver src_account_name c o ->
  let sreq := source_request (source_path_of ver src_account_name c o) req in
  handle_PUT req =
    write_or_stop _app_call req src_account_name (c +:+ "/" +:+ o) sreq
      (checked_source MAX_FILE_SIZE (get_response sreq)).
Proof.
  intros (Hbody & (acct & rest & Hsplit & Hacct) & Hcheck & Hv & Ha) sreq.
  set (src := checked_source MAX_FILE_SIZE (get_response sreq)).
  rewrite handle_PUT_unfold.
  replace (match Request.content_length req with
           | Some n => negb (n =? 0)
           | None => false
           end) with false by (by destruct Hbody as [-> | ->]).
  rewrite Hsplit. cbv beta iota. rewrite bind_lift_Ok.
  rewrite Hacct, bind_lift_Ok, Hcheck, bind_lift_Ok. cbv zeta.
  rewrite _get_source_object_eq. fold sreq. fold src.
  unfold write_or_stop.
  cbv beta iota delta [bind ret lift raise].
  destruct (HTTP_MULTIPLE_CHOICES <=? Response.status_int src); [done|].
  rewrite _create_response_headers_ok by done.
  reflexivity.
Qed.

(** A copy that read the source was validated. *)
Lemma handle_PUT_fetched req sreq :
  SubRequest sreq ∈ calls (handle_PUT req) ->
  exists ver src_account_name c o,
    validated req ver src_account_name c o /\
    sreq = source_request (source_path_of ver src_account_name c o) req /\
    handle_PUT req =
      write_or_stop _app_call req src_account_name (c +:+ "/" +:+ o) sreq
        (checked_source MAX_FILE_SIZE (get_response sreq)).
Proof.
  intros Hin. destruct (handle_PUT_early req) as [Hnil|(ver & a & c & o & Hval)].
  { rewrite Hnil in Hin. by apply elem_of_nil in Hin. }
  exists ver, a, c, o. pose proof (handle_PUT_validated _ _ _ _ _ Hval) as Heq.
  cbn zeta in Heq. rewrite Heq in Hin.
  assert (sreq = source_request (source_path_of ver a c o) req) as ->; [|done].
  unfold write_or_stop, calls in Hin.
  repeat case_match; cbn [fst] in Hin;
    repeat (apply elem_of_cons in Hin as [Hin|Hin]);
    try (by apply elem_of_nil in Hin); congruence.
Qed.

Lemma checked_source_status r :
  Response.status_int (checked_source MAX_FILE_SIZE r) < HTTP_MULTIPLE_CHOICES ->
  checked_source MAX_FILE_SIZE r = r /\
  exists n, Response.content_length r = Some n /\ n <= MAX_FILE_SIZE.
Proof.
  unfold checked_source. destruct (Response.content_length r) as [n|]; [|done].
  destruct (Z.ltb_spec MAX_FILE_SIZE n); [done|]. intros _. split; [done|]. by exists n.
Qed.

(** A copy that wrote: what was read, and what was written. *)
Lemma handle_PUT_written req sreq sink :
  calls (handle_PUT req) = [SubRequest sreq; AppCall sink] ->
  let src := get_response sreq in
  exists ver src_account_name c o,
    validated req ver src_account_name c o /\
    sreq = source_request (source_path_of ver src_account_name c o) req /\
    Response.status_int src < HTTP_MULTIPLE_CHOICES /\
    (exists n, Response.content_length src = Some n /\ n <= MAX_FILE_SIZE) /\
    (truthy (hget (Request.headers req) "content-type") = false ->
     hget (Request.headers sink) "Content-Type" =
       hget (Response.headers src) "Content-Type") /\
    sink = sink_request req src /\
    outcome (handle_PUT req) =
      Ok (_adjust_put_response (_app_call sink) sink
            (copied_from_headers src_account_name (c +:+ "/" +:+ o) src sink)).
Proof.
  intros Hcalls src.
  destruct (handle_PUT_fetched req sreq) as (ver & a & c & o & Hval & Hsreq & Heq).
  { rewrite Hcalls. apply elem_of_cons. by left. }
  exists ver, a, c, o. rewrite Heq in Hcalls |- *. clear Heq.
  unfold write_or_stop in *. fold src in Hcalls |- *.
  destruct (Z.leb_spec HTTP_MULTIPLE_CHOICES
              (Response.status_int (checked_source MAX_FILE_SIZE src))) as [|Hst];
    [done|].
  destruct (checked_source_status _ Hst) as [Hsrc Hlen]. rewrite Hsrc in *.
  cbn zeta in Hcalls. injection Hcalls as <-.
  do 4 (split; [done|]). split; [|done].
  intros Ht. unfold hget at 1. rewrite sink_request_plain by done.
  unfold sink_request_typed. rewrite Ht. cbn [negb].
  destruct (hget (Response.headers src) "Content-Type") as [ct|]; simpl_request.
  - apply lookup_insert_eq.
  - apply lookup_delete_eq.
Qed.

End PutFacts.

(** ** From the entry point to the PUT handler *)

Section DispatchFacts.
Import PyStr Helpers Copy Views.

Variable get_response : Request.t -> Response.t.
Variable _app_call : Request.t -> WSGIContext.
Variable MAX_FILE_SIZE : Z.

Local Abbreviation handle_PUT := (Copy.handle_PUT get_response _app_call MAX_FILE_SIZE).
Local Abbreviation handle_COPY := (Copy.handle_COPY get_response _app_call MAX_FILE_SIZE).
Local Abbreviation handle_object_post_as_copy :=
  (Copy.handle_object_post_as_copy get_response _app_call MAX_FILE_SIZE).
Local Abbreviation __call__ := (Copy.__call__ get_response _app_call MAX_FILE_SIZE).

Lemma _check_destination_header_ext r1 r2 :
  hget (Request.headers r1) "Destination" = hget (Request.headers r2) "Destination" ->
  _check_destination_header r1 = _check_destination_header r2.
Proof. intros H. unfold _check_destination_header, _check_path_header. by rewrite H. Qed.

(** COPY either stops before it calls anything, or goes on as a PUT. *)
Lemma handle_COPY_cases self req :
  calls (handle_COPY self req) = [] \/
  exists ver dest_account dest_container dest_object,
    destination_account self req = Ok dest_account /\
    unpack2 (_check_destination_header req) = Ok (dest_container, dest_object) /\
    (exists junk, Request.split_path req 1 2 = Some [Some ver; junk]) /\
    handle_COPY self req =
      handle_PUT (copy_as_put self req ver dest_account dest_container dest_object).
Proof.
  unfold Copy.handle_COPY, destination_account, copy_as_put.
  destruct (negb (truthy _)); [by left|].
  destruct (hin "Destination-Account" (Request.headers req)).
  - destruct (check_account_format _) as [dest_account|]; [|by left].
    rewrite bind_lift_Ok. cbv beta iota zeta.
    match goal with
    | |- context [_check_destination_header ?r] =>
        rewrite (_check_destination_header_ext r req)
          by (simpl_request; unfold hget; by rewrite hpop_lookup_ne, hset_lookup_ne)
    end.
    destruct (unpack2 (_check_destination_header req)) as [[dc dobj]|]; [|by left].
    rewrite bind_lift_Ok. unfold Request.split_path. simpl_request.
    destruct (split_path (Request.path_info req) 1 2) as [[|[ver|] [|junk [|]]]|];
      try (by left).
    rewrite bind_lift_Ok. right. exists ver, dest_account, dc, dobj.
    repeat split; eauto.
  - rewrite bind_lift_Ok. cbv beta iota zeta.
    destruct (unpack2 (_check_destination_header req)) as [[dc dobj]|]; [|by left].
    rewrite bind_lift_Ok. unfold Request.split_path. simpl_request.
    destruct (split_path (Request.path_info req) 1 2) as [[|[ver|] [|junk [|]]]|];
      try (by left).
    rewrite bind_lift_Ok. right. exists ver, (account_name self), dc, dobj.
    repeat split; eauto.
Qed.

(** Whatever reads a source does so through the PUT handler. *)
Lemma call_reaches_PUT self req sreq :
  SubRequest sreq ∈ calls (__call__ self req) ->
  exists req', __call__ self req = handle_PUT req'.
Proof.
  unfold Copy.__call__, pass_through, handle_OPTIONS, handle_OPTIONS_request.
  assert (forall r : Request.t, SubRequest sreq ∉ [AppCall r]) as Hno.
  { intros r [Hr|Hr%elem_of_nil]%elem_of_cons; done. }
  destruct (Request.split_path req 4 4) as [[|[v|] [|[a|] [|[c|] [|[o|] [|]]]]]|];
    try (by intros ?%Hno).
  repeat case_match; try (by intros ?%Hno); try (by eexists).
  intros Hin.
  match type of Hin with
  | context [Copy.handle_COPY _ _ _ ?s ?r] =>
      destruct (handle_COPY_cases s r) as [Hnil|(? & ? & ? & ? & _ & _ & _ & Heq)]
  end.
  - rewrite Hnil in Hin. by apply elem_of_nil in Hin.
  - by eexists.
Qed.

End DispatchFacts.

(** ** From the request to the write *)

Section EndToEnd.
Import PyStr Helpers Copy Views.

Variable get_response : Request.t -> Response.t.
Variable _app_call : Request.t -> WSGIContext.
Variable MAX_FILE_SIZE : Z.

Local Abbreviation handle_PUT := (Copy.handle_PUT get_response _app_call MAX_FILE_SIZE).
Local Abbreviation handle_COPY := (Copy.handle_COPY get_response _app_call MAX_FILE_SIZE).
Local Abbreviation __call__ := (Copy.__call__ get_response _app_call MAX_FILE_SIZE).

(** A validated request whose source is accepted is written. *)
Lemma handle_PUT_writes req ver src_account_name c o n :
  validated req ver src_account_name c o ->
  let sreq := source_request (source_path_of ver src_account_name c o) req in
  let src := get_response sreq in
  Response.content_length src = Some n -> n <= MAX_FILE_SIZE ->
  Response.status_int src < HTTP_MULTIPLE_CHOICES ->
  handle_PUT req = written get_response _app_call req src_account_name c o sreq.
Proof.
  intros Hval sreq src Hlen Hn Hst.
  rewrite (handle_PUT_validated _ _ _ _ _ _ _ _ Hval). fold sreq. fold src.
  rewrite (checked_source_fits _ _ _ Hlen Hn). unfold write_or_stop, written.
  fold src. by rewrite (proj2 (Z.leb_gt _ _) Hst).
Qed.

(** COPY with its checks passed goes on as a PUT. *)
Lemma handle_COPY_run self req ver dest_account dest_container dest_object junk :
  truthy (hget (Request.headers req) "Destination") = true ->
  destination_account self req = Ok dest_account ->
  unpack2 (_check_destination_header req) = Ok (dest_container, dest_object) ->
  Request.split_path req 1 2 = Some [Some ver; junk] ->
  handle_COPY self req =
    handle_PUT (copy_as_put self req ver dest_account dest_container dest_object).
Proof.
  intros Hdest Hda Hcheck Hver.
  unfold Copy.handle_COPY, destination_account, copy_as_put in *.
  rewrite Hdest. cbn [negb]. unfold Request.split_path in Hver.
  destruct (hin "Destination-Account" (Request.headers req)).
  - rewrite Hda, bind_lift_Ok. cbv beta iota zeta.
    match goal with
    | |- context [_check_destination_header ?r] =>
        rewrite (_check_destination_header_ext r req)
          by (simpl_request; unfold hget; by rewrite hpop_lookup_ne, hset_lookup_ne)
    end.
    rewrite Hcheck, bind_lift_Ok. unfold Request.split_path. simpl_request.
    rewrite Hver. by rewrite bind_lift_Ok.
  - injection Hda as <-. rewrite bind_lift_Ok. cbv beta iota zeta.
    rewrite Hcheck, bind_lift_Ok. unfold Request.split_path. simpl_request.
    rewrite Hver. by rewrite bind_lift_Ok.
Qed.

(** A cross-account COPY, from the request to the write: the source is
    read from the account and path of the request, and written to the
    destination account and path. *)
Lemma COPY_across_accounts self req ver A c o B d dest_container dest_object n :
  Request.method req = "COPY" ->
  Request.split_path req 4 4 = Some [Some ver; Some A; Some c; Some o] ->
  hget (Request.headers req) "Destination-Account" = Some B ->
  B <> "" -> contains "/" B = false ->
  hget (Request.headers req) "Destination" = Some d -> d <> "" ->
  repaired_path d = "/" +:+ dest_container +:+ "/" +:+ dest_object ->
  dest_container <> "" -> dest_object <> "" -> contains "/" dest_container = false ->
  let req' :=
    copy_as_put (mkMiddleware A c o (object_post_as_copy self))
      (Request.set_orig_req_method (Some "COPY") req) ver B dest_container dest_object in
  let sreq := source_request (source_path_of ver A c o) req' in
  let src := get_response sreq in
  Response.content_length src = Some n -> n <= MAX_FILE_SIZE ->
  Response.status_int src < HTTP_MULTIPLE_CHOICES ->
  __call__ self req = written get_response _app_call req' A c o sreq /\
  Request.path_info sreq = quote ("/" +:+ ver +:+ "/" +:+ A +:+ "/" +:+ c +:+ "/" +:+ o) /\
  Request.path_info (sink_request req' src) =
    "/" +:+ ver +:+ "/" +:+ B +:+ "/" +:+ dest_container +:+ "/" +:+ dest_object.
Proof.
  intros Hm Hsplit HB HBne HBs Hd Hdne Hrep Hdc Hdo Hdcs req' sreq src Hlen Hn Hst.
  pose proof (split_path_4_4_inv _ _ _ _ _ Hsplit) as Hpath.
  destruct (split_path_Some _ 4 4 _ 0 ver ltac:(lia) ltac:(lia) Hsplit eq_refl) as [Hv1 Hv2].
  destruct (split_path_Some _ 4 4 _ 1 A ltac:(lia) ltac:(lia) Hsplit eq_refl) as [HA1 HA2].
  destruct (split_path_Some _ 4 4 _ 2 c ltac:(lia) ltac:(lia) Hsplit eq_refl) as [Hc1 Hc2].
  destruct (split_path_Some _ 4 4 _ 3 o ltac:(lia) ltac:(lia) Hsplit eq_refl) as [_ Ho2].
  specialize (Hv1 ltac:(lia)). specialize (Hv2 ltac:(lia)).
  specialize (HA1 ltac:(lia)). specialize (HA2 ltac:(lia)).
  specialize (Hc1 ltac:(lia)). specialize (Hc2 ltac:(lia)). specialize (Ho2 ltac:(lia)).
  set (self' := mkMiddleware A c o (object_post_as_copy self)) in *.
  set (req1 := Request.set_orig_req_method (Some "COPY") req) in *.
  assert (hin "Destination-Account" (Request.headers req1) = true) as Hin.
  { unfold hin, hget in *. subst req1. simpl_request. apply bool_decide_eq_true_2.
    by eexists. }
  assert (__call__ self req = handle_PUT req') as Hcall.
  { unfold Copy.__call__. rewrite Hsplit. cbv zeta. simpl_request. rewrite Hm.
    change (bool_decide ("COPY" = "PUT")) with false.
    change (bool_decide ("COPY" = "COPY")) with true. cbn [andb].
    fold self' req1. apply (handle_COPY_run self' req1 ver B _ _ (Some (A +:+ "/" +:+ c +:+ "/" +:+ o))).
    - subst req1. simpl_request. rewrite Hd. unfold truthy.
      by rewrite bool_decide_eq_false_2.
    - unfold destination_account. rewrite Hin. subst req1. simpl_request. rewrite HB.
      change (default "" (Some B)) with B. unfold check_account_format.
      rewrite bool_decide_eq_false_2 by done. by rewrite HBs.
    - rewrite (_check_destination_header_ext req1 req) by done.
      unfold _check_destination_header.
      by rewrite (_check_path_header_well_formed req "Destination" _ d
                    dest_container dest_object).
    - unfold Request.split_path. subst req1. simpl_request. unfold Request.split_path in Hpath.
      rewrite Hpath. apply split_path_1_2_of_object_path; try done.
      by destruct A. }
  assert (Request.path_info req' =
            "/" +:+ ver +:+ "/" +:+ B +:+ "/" +:+ dest_container +:+ "/" +:+ dest_object)
    as Hpath'.
  { subst req'. unfold copy_as_put. by case_match. }
  assert (validated req' ver A c o) as Hval.
  { split; [right; subst req'; unfold copy_as_put; by case_match|].
    split; [|split; [|done]].
    - exists B, (Some (dest_container +:+ "/" +:+ dest_object)). split.
      + unfold Request.split_path. rewrite Hpath'.
        by apply split_path_2_3_of_object_path.
      + unfold source_account.
        assert (hget (Request.headers req') "X-Copy-From-Account" = Some A) as ->.
        { subst req'. unfold copy_as_put. rewrite Hin. unfold hget. simpl_request.
          rewrite hpop_lookup_ne, hset_lookup_ne, hpop_lookup_ne by done.
          apply lookup_insert_eq. }
        unfold truthy. rewrite bool_decide_eq_false_2 by done. cbn [negb].
        unfold check_account_format. rewrite bool_decide_eq_false_2 by done.
        by rewrite HA1.
    - unfold _check_copy_from_header.
      rewrite (_check_path_header_well_formed req' "X-Copy-From" _
                 (quote ("/" +:+ c +:+ "/" +:+ o)) c o); try done.
      + subst req'. unfold copy_as_put, hget. case_match; simpl_request;
          rewrite hpop_lookup_ne by done; apply lookup_insert_eq.
      + unfold repaired_path. rewrite unquote_quote. done. }
  rewrite Hcall. split; [|split].
  - by apply (handle_PUT_writes req' ver A c o n Hval).
  - subst sreq. unfold source_request. by repeat case_match.
  - by rewrite sink_request_path_info.
Qed.

End EndToEnd.

(** ** Metadata on the write request *)

Section MetadataClaims.
Import PyStr Helpers Copy Views.

(** C1.  Normal copy: for every header of a carried kind (system,
    user or transient-system metadata, or X-Delete-At), the write
    request has the value the incoming request gives it, and otherwise
    the value the source response gives it. *)
Theorem C1_normal_copy_merges_metadata get_response _app_call MAX_FILE_SIZE
    (req sreq sink : Request.t) (k : string) :
  calls (handle_PUT get_response _app_call MAX_FILE_SIZE req) =
    [SubRequest sreq; AppCall sink] ->
  fresh_meta_flag (Request.headers req) = false ->
  Request.post_as_copy req = false ->
  is_sys_meta "object" k = true \/ is_user_meta "object" k = true \/
    is_object_transient_sysmeta k = true \/ lower k = "x-delete-at" ->
  Request.headers sink !! k =
    match Request.headers req !! k with
    | Some v => Some v
    | None => Response.headers (get_response sreq) !! k
    end.
Proof.
  intros Hcalls Hfresh Hpost Hkind%carried_cases.
  destruct (handle_PUT_written _ _ _ _ _ _ Hcalls)
    as (ver & a & c & o & _ & _ & _ & _ & _ & -> & _).
  rewrite sink_request_headers, Hfresh, Hpost. cbn [orb]. cbn zeta.
  rewrite !_copy_headers_into_lookup, Hkind.
  destruct (Request.headers req !! k) as [v|] eqn:Hreq; [done|].
  destruct (Response.headers (get_response sreq) !! k) as [v|]; [done|].
  destruct (carried_not_named _ Hkind) as (? & ? & ? & ? & _).
  by rewrite sink_request_typed_headers.
Qed.

Lemma C1_normal_copy_merges_metadata_witness :
  let run := handle_PUT Scenarios.serve_stored Scenarios.created Scenarios.ceiling
                        Scenarios.put_copy in
  let sink := sink_request Scenarios.put_copy Scenarios.stored in
  calls run = [SubRequest (source_request "/v1/AUTH_a/c/o" Scenarios.put_copy); AppCall sink] /\
  Request.headers sink !! "x-object-meta-color" = Some "red" /\
  Request.headers sink !! "x-object-meta-shape" = Some "round".
Proof.
  assert (calls (handle_PUT Scenarios.serve_stored Scenarios.created Scenarios.ceiling
                            Scenarios.put_copy) =
          [SubRequest (source_request "/v1/AUTH_a/c/o" Scenarios.put_copy);
           AppCall (sink_request Scenarios.put_copy Scenarios.stored)]) as Hrun
    by (vm_compute; reflexivity).
  split; [exact Hrun|]. split.
  - exact (C1_normal_copy_merges_metadata _ _ _ _ _ _ "x-object-meta-color" Hrun
             eq_refl eq_refl (or_intror (or_introl eq_refl))).
  - exact (C1_normal_copy_merges_metadata _ _ _ _ _ _ "x-object-meta-shape" Hrun
             eq_refl eq_refl (or_intror (or_introl eq_refl))).
Defined.

(** Under the fresh policy the system metadata comes from the source
    and the rest of the metadata from the request. *)
Lemma fresh_policy_metadata get_response _app_call MAX_FILE_SIZE
    (req sreq sink : Request.t) :
  calls (handle_PUT get_response _app_call MAX_FILE_SIZE req) =
    [SubRequest sreq; AppCall sink] ->
  fresh_meta_flag (Request.headers req) = true \/ Request.post_as_copy req = true ->
  (forall k, is_sys_meta "object" k = true ->
     Request.headers sink !! k = Response.headers (get_response sreq) !! k) /\
  (forall k, is_user_meta "object" k = true \/ is_object_transient_sysmeta k = true ->
     Request.headers sink !! k = Request.headers req !! k).
Proof.
  intros Hcalls Hmode.
  destruct (handle_PUT_written _ _ _ _ _ _ Hcalls)
    as (ver & a & c & o & _ & _ & _ & _ & _ & -> & _).
  rewrite sink_request_headers. cbn zeta.
  replace (fresh_meta_flag (Request.headers req) || Request.post_as_copy req) with true
    by (destruct Hmode as [-> | ->]; by rewrite ?orb_true_r).
  split.
  - intros k Hk. rewrite copy_header_subset_lookup, Hk, remove_items_lookup, Hk.
    by destruct (_ !! k).
  - intros k Hk.
    assert (is_sys_meta "object" k = false) as Hs.
    { destruct (is_sys_meta "object" k) eqn:E; [|done].
      destruct Hk as [Hk|Hk]; [by rewrite (sys_not_user _ E) in Hk|].
      by rewrite (sys_not_transient _ E) in Hk. }
    rewrite copy_header_subset_lookup, Hs, remove_items_lookup, Hs.
    assert (carried k = true) as Hc by (apply carried_cases; tauto).
    destruct (carried_not_named _ Hc) as (? & ? & ? & ? & _).
    by apply sink_request_typed_headers.
Qed.

Lemma handle_object_post_as_copy_eq get_response _app_call MAX_FILE_SIZE self req :
  handle_object_post_as_copy get_response _app_call MAX_FILE_SIZE self req =
    handle_PUT get_response _app_call MAX_FILE_SIZE (post_as_put self req).
Proof. reflexivity. Qed.

(** C2.  Fresh metadata or post-as-copy: the system metadata of the
    write request is that of the source response, whatever the request
    carried, and the user and transient-system metadata of the request
    are left as the request has them.  This holds in the PUT handler
    when the request asks for fresh metadata or is marked post-as-copy,
    and for every POST handled as a copy. *)
Theorem C2_fresh_copy_takes_source_sysmeta get_response _app_call MAX_FILE_SIZE :
  (forall (req sreq sink : Request.t),
     calls (handle_PUT get_response _app_call MAX_FILE_SIZE req) =
       [SubRequest sreq; AppCall sink] ->
     fresh_meta_flag (Request.headers req) = true \/ Request.post_as_copy req = true ->
     (forall k, is_sys_meta "object" k = true ->
        Request.headers sink !! k = Response.headers (get_response sreq) !! k) /\
     (forall k, is_user_meta "object" k = true \/ is_object_transient_sysmeta k = true ->
        Request.headers sink !! k = Request.headers req !! k)) /\
  (forall self (req sreq sink : Request.t),
     calls (handle_object_post_as_copy get_response _app_call MAX_FILE_SIZE self req) =
       [SubRequest sreq; AppCall sink] ->
     (forall k, is_sys_meta "object" k = true ->
        Request.headers sink !! k = Response.headers (get_response sreq) !! k) /\
     (forall k, is_user_meta "object" k = true \/ is_object_transient_sysmeta k = true ->
        Request.headers sink !! k = Request.headers req !! k)).
Proof.
  split; [apply fresh_policy_metadata|].
  intros self req sreq sink Hcalls. rewrite handle_object_post_as_copy_eq in Hcalls.
  destruct (fresh_policy_metadata _ _ _ _ _ _ Hcalls (or_intror eq_refl)) as [Hsys Huser].
  split; [exact Hsys|]. intros k Hk. rewrite (Huser k Hk).
  assert (carried k = true) as Hc by (apply carried_cases; tauto).
  destruct (carried_not_named _ Hc) as (_ & ? & _).
  assert (k <> lower "Range") by (intros ->; by vm_compute in Hc).
  unfold post_as_put. simpl_request. by rewrite hset_lookup_ne, hpop_lookup_ne.
Qed.

Lemma C2_fresh_copy_takes_source_sysmeta_witness :
  (let sink := sink_request Scenarios.put_copy_fresh Scenarios.stored in
   calls (handle_PUT Scenarios.serve_stored Scenarios.created Scenarios.ceiling
                     Scenarios.put_copy_fresh) =
     [SubRequest (source_request "/v1/AUTH_a/c/o" Scenarios.put_copy_fresh); AppCall sink] /\
   Request.headers sink !! "x-object-sysmeta-ec" = Some "1" /\
   Request.headers sink !! "x-object-sysmeta-mine" = None /\
   Request.headers sink !! "x-object-meta-color" = Some "red" /\
   Request.headers sink !! "x-object-meta-shape" = None) /\
  (exists sreq sink,
     calls (handle_object_post_as_copy Scenarios.serve_stored Scenarios.created
              Scenarios.ceiling Scenarios.post_middleware Scenarios.post_metadata) =
       [SubRequest sreq; AppCall sink] /\
     Request.headers sink !! "x-object-sysmeta-ec" = Some "1" /\
     Request.headers sink !! "x-object-sysmeta-mine" = None /\
     Request.headers sink !! "x-object-meta-color" = Some "green").
Proof.
  pose proof (C2_fresh_copy_takes_source_sysmeta Scenarios.serve_stored Scenarios.created
                Scenarios.ceiling) as [Hput Hpost].
  split.
  - assert (calls (handle_PUT Scenarios.serve_stored Scenarios.created Scenarios.ceiling
                              Scenarios.put_copy_fresh) =
            [SubRequest (source_request "/v1/AUTH_a/c/o" Scenarios.put_copy_fresh);
             AppCall (sink_request Scenarios.put_copy_fresh Scenarios.stored)]) as Hrun
      by (vm_compute; reflexivity).
    destruct (Hput _ _ _ Hrun (or_introl eq_refl)) as [Hsys Huser].
    exact (conj Hrun
             (conj (Hsys "x-object-sysmeta-ec" eq_refl)
                (conj (Hsys "x-object-sysmeta-mine" eq_refl)
                   (conj (Huser "x-object-meta-color" (or_introl eq_refl))
                         (Huser "x-object-meta-shape" (or_introl eq_refl)))))).
  - assert (exists sreq sink,
              calls (handle_object_post_as_copy Scenarios.serve_stored Scenarios.created
                       Scenarios.ceiling Scenarios.post_middleware Scenarios.post_metadata) =
                [SubRequest sreq; AppCall sink]) as (sreq & sink & Hrun)
      by (eexists _, _; vm_compute; reflexivity).
    destruct (Hpost _ _ _ _ Hrun) as [Hsys Huser].
    exists sreq, sink.
    exact (conj Hrun
             (conj (Hsys "x-object-sysmeta-ec" eq_refl)
                (conj (Hsys "x-object-sysmeta-mine" eq_refl)
                      (Huser "x-object-meta-color" (or_introl eq_refl))))).
Defined.

(** C8, as the code has it.  With multipart-manifest=get on the
    request: a source that carries the static-large-object mark and no
    X-Object-Manifest makes the write's multipart-manifest "put"; a
    source that carries X-Object-Manifest has that header copied onto
    the write, and the write has no multipart-manifest parameter. *)
Theorem C8_manifest_copy_mode get_response _app_call MAX_FILE_SIZE
    (req sreq sink : Request.t) :
  calls (handle_PUT get_response _app_call MAX_FILE_SIZE req) =
    [SubRequest sreq; AppCall sink] ->
  Request.params req !! "multipart-manifest" = Some "get" ->
  let source_resp := get_response sreq in
  (hin "X-Static-Large-Object" (Response.headers source_resp) = true ->
   hget (Response.headers source_resp) "X-Object-Manifest" = None ->
   Request.params sink !! "multipart-manifest" = Some "put") /\
  (forall manifest,
     hget (Response.headers source_resp) "X-Object-Manifest" = Some manifest ->
     hget (Request.headers sink) "X-Object-Manifest" = Some manifest /\
     Request.params sink !! "multipart-manifest" = None).
Proof.
  intros Hcalls Hget source_resp.
  destruct (handle_PUT_written _ _ _ _ _ _ Hcalls)
    as (ver & a & c & o & _ & _ & _ & _ & _ & -> & _).
  fold source_resp. split.
  - intros Hslo Hdlo. rewrite sink_request_params. unfold sink_request_base.
    rewrite bool_decide_eq_true_2 by done. rewrite Hslo, Hdlo. simpl_request.
    apply lookup_insert_eq.
  - intros manifest Hdlo. split.
    + unfold hget. rewrite sink_request_plain by done.
      unfold sink_request_typed, sink_request_base.
      rewrite bool_decide_eq_true_2 by done. rewrite Hdlo.
      repeat case_match; simpl_request;
        repeat ((rewrite hset_lookup_ne by done) || (rewrite hpop_lookup_ne by done));
        apply lookup_insert_eq.
    + rewrite sink_request_params. unfold sink_request_base.
      rewrite bool_decide_eq_true_2 by done. rewrite Hdlo. simpl_request.
      apply lookup_delete_eq.
Qed.

Lemma C8_manifest_copy_mode_witness :
  (let sink := sink_request Scenarios.put_copy_manifest Scenarios.stored_slo in
   calls (handle_PUT (fun _ => Scenarios.stored_slo) Scenarios.created Scenarios.ceiling
                     Scenarios.put_copy_manifest) =
     [SubRequest (source_request "/v1/AUTH_a/c/o" Scenarios.put_copy_manifest);
      AppCall sink] /\
   Request.params sink !! "multipart-manifest" = Some "put") /\
  (let sink := sink_request Scenarios.put_copy_manifest Scenarios.stored_dlo in
   calls (handle_PUT (fun _ => Scenarios.stored_dlo) Scenarios.created Scenarios.ceiling
                     Scenarios.put_copy_manifest) =
     [SubRequest (source_request "/v1/AUTH_a/c/o" Scenarios.put_copy_manifest);
      AppCall sink] /\
   hget (Request.headers sink) "X-Object-Manifest" = Some "segments/o_" /\
   Request.params sink !! "multipart-manifest" = None).
Proof.
  assert (calls (handle_PUT (fun _ => Scenarios.stored_slo) Scenarios.created
                   Scenarios.ceiling Scenarios.put_copy_manifest) =
          [SubRequest (source_request "/v1/AUTH_a/c/o" Scenarios.put_copy_manifest);
           AppCall (sink_request Scenarios.put_copy_manifest Scenarios.stored_slo)])
    as Hslo by (vm_compute; reflexivity).
  assert (calls (handle_PUT (fun _ => Scenarios.stored_dlo) Scenarios.created
                   Scenarios.ceiling Scenarios.put_copy_manifest) =
          [SubRequest (source_request "/v1/AUTH_a/c/o" Scenarios.put_copy_manifest);
           AppCall (sink_request Scenarios.put_copy_manifest Scenarios.stored_dlo)])
    as Hdlo by (vm_compute; reflexivity).
  split.
  - split; [exact Hslo|].
    exact (proj1 (C8_manifest_copy_mode _ _ _ _ _ _ Hslo eq_refl) eq_refl eq_refl).
  - split; [exact Hdlo|].
    exact (proj2 (C8_manifest_copy_mode _ _ _ _ _ _ Hdlo eq_refl) "segments/o_" eq_refl).
Defined.

(** C8 as stated fails on a source that carries both marks: the
    multipart-manifest parameter is dropped, not set to "put". *)
Lemma C8_manifest_copy_mode_both_marks :
  ~ (forall get_response _app_call MAX_FILE_SIZE (req sreq sink : Request.t),
       calls (handle_PUT get_response _app_call MAX_FILE_SIZE req) =
         [SubRequest sreq; AppCall sink] ->
       Request.params req !! "multipart-manifest" = Some "get" ->
       hin "X-Static-Large-Object" (Response.headers (get_response sreq)) = true ->
       Request.params sink !! "multipart-manifest" = Some "put").
Proof.
  intros Hclaim.
  specialize (Hclaim (fun _ => Scenarios.stored_both) Scenarios.created Scenarios.ceiling
                Scenarios.put_copy_manifest
                (source_request "/v1/AUTH_a/c/o" Scenarios.put_copy_manifest)
                (sink_request Scenarios.put_copy_manifest Scenarios.stored_both)).
  assert (Request.params (sink_request Scenarios.put_copy_manifest Scenarios.stored_both)
            !! "multipart-manifest" = None) as Hnone by (vm_compute; reflexivity).
  rewrite Hnone in Hclaim. discriminate Hclaim; vm_compute; reflexivity.
Qed.

End MetadataClaims.

(** ** The answer of the source *)

Section FetchClaims.
Import PyStr Helpers Copy Views.

(** C4.  A copy whose source answers with no content length, or with
    one above the ceiling, ends with 413 after the one read: no write
    is made.  This holds for the PUT handler and for every request the
    middleware is called with. *)
Theorem C4_oversized_source_is_refused get_response _app_call MAX_FILE_SIZE
    (self : Middleware) (req sreq : Request.t) :
  Response.content_length (get_response sreq) = None \/
  (exists n, Response.content_length (get_response sreq) = Some n /\ MAX_FILE_SIZE < n) ->
  (SubRequest sreq ∈ calls (handle_PUT get_response _app_call MAX_FILE_SIZE req) ->
   handle_PUT get_response _app_call MAX_FILE_SIZE req =
     ([SubRequest sreq], Ok (respond HTTPRequestEntityTooLarge))) /\
  (SubRequest sreq ∈ calls (__call__ get_response _app_call MAX_FILE_SIZE self req) ->
   __call__ get_response _app_call MAX_FILE_SIZE self req =
     ([SubRequest sreq], Ok (respond HTTPRequestEntityTooLarge))) /\
  _get_status_int (respond HTTPRequestEntityTooLarge) = 413.
Proof.
  intros Hbig.
  assert (forall r, SubRequest sreq ∈ calls (handle_PUT get_response _app_call MAX_FILE_SIZE r) ->
                    handle_PUT get_response _app_call MAX_FILE_SIZE r =
                      ([SubRequest sreq], Ok (respond HTTPRequestEntityTooLarge))) as Hput.
  { intros r Hin.
    destruct (handle_PUT_fetched _ _ _ _ _ Hin) as (ver & a & c & o & _ & _ & ->).
    by rewrite (checked_source_too_large _ _ Hbig). }
  split; [apply Hput|]. split; [|done].
  intros Hin. destruct (call_reaches_PUT _ _ _ _ _ _ Hin) as [req' Heq].
  rewrite Heq in Hin |- *. by apply Hput.
Qed.

Lemma C4_oversized_source_is_refused_witness :
  handle_PUT (fun _ => Scenarios.stored_chunked) Scenarios.created Scenarios.ceiling
             Scenarios.put_copy =
    ([SubRequest (source_request "/v1/AUTH_a/c/o" Scenarios.put_copy)],
     Ok (respond HTTPRequestEntityTooLarge)) /\
  exists sreq,
    __call__ (fun _ => Scenarios.stored_huge) Scenarios.created Scenarios.ceiling
             Scenarios.middleware Scenarios.copy_across =
      ([SubRequest sreq], Ok (respond HTTPRequestEntityTooLarge)).
Proof.
  split.
  - refine (proj1 (C4_oversized_source_is_refused (fun _ => Scenarios.stored_chunked)
                     Scenarios.created Scenarios.ceiling Scenarios.middleware
                     Scenarios.put_copy _ (or_introl eq_refl)) _).
    vm_compute. apply elem_of_cons. by left.
  - eexists.
    refine (proj1 (proj2 (C4_oversized_source_is_refused (fun _ => Scenarios.stored_huge)
                     Scenarios.created Scenarios.ceiling Scenarios.middleware
                     Scenarios.copy_across _
                     (or_intror (ex_intro _ (Scenarios.ceiling + 1) (conj eq_refl eq_refl))))) _).
    vm_compute. apply elem_of_cons. by left.
Defined.




End FetchClaims.

(** ** The body of a copy request, and the answer of the write *)

Section LocalClaims.
Import PyStr Helpers Copy Views.

(** C5, as the code has it.  A request that reaches the PUT handler
    with a non-zero declared length, as every PUT with X-Copy-From
    does, is answered 400 before anything is read.  COPY and
    post-as-copy set the declared length to zero before they hand the
    request to the PUT handler. *)
Theorem C5_put_copy_with_body_is_refused get_response _app_call MAX_FILE_SIZE
    (req : Request.t) (n : Z) :
  Request.content_length req = Some n -> n <> 0 ->
  handle_PUT get_response _app_call MAX_FILE_SIZE req = ([], Ok (respond BODY_REFUSED)) /\
  _get_status_int (respond BODY_REFUSED) = 400 /\
  (forall self,
     Request.method req = "PUT" ->
     truthy (hget (Request.headers req) "X-Copy-From") = true ->
     is_copy_request self req = true ->
     __call__ get_response _app_call MAX_FILE_SIZE self req = ([], Ok (respond BODY_REFUSED))) /\
  (forall self,
     calls (handle_COPY get_response _app_call MAX_FILE_SIZE self req) = [] \/
     exists req',
       handle_COPY get_response _app_call MAX_FILE_SIZE self req =
         handle_PUT get_response _app_call MAX_FILE_SIZE req' /\
       Request.content_length req' = Some 0) /\
  (forall self,
     exists req',
       handle_object_post_as_copy get_response _app_call MAX_FILE_SIZE self req =
         handle_PUT get_response _app_call MAX_FILE_SIZE req' /\
       Request.content_length req' = Some 0).
Proof.
  intros Hlen Hn.
  assert (forall r, Request.content_length r = Some n ->
            handle_PUT get_response _app_call MAX_FILE_SIZE r = ([], Ok (respond BODY_REFUSED)))
    as Hput.
  { intros r Hr. unfold handle_PUT. rewrite Hr.
    by rewrite (proj2 (Z.eqb_neq n 0) Hn). }
  split; [by apply Hput|]. split; [done|]. split; [|split].
  - intros self Hm Hx. unfold is_copy_request, __call__.
    destruct (Request.split_path req 4 4) as [[|[v|] [|[a|] [|[c|] [|[o|] [|]]]]]|];
      try done.
    intros _. cbv zeta. simpl_request. rewrite Hx.
    rewrite (bool_decide_eq_true_2 _ Hm). cbn [andb]. by apply Hput.
  - intros self.
    destruct (handle_COPY_cases get_response _app_call MAX_FILE_SIZE self req)
      as [Hnil|(ver & da & dc & dobj & _ & _ & _ & Heq)]; [by left|].
    right. eexists. split; [exact Heq|]. unfold copy_as_put. by case_match.
  - intros self. eexists. split; [reflexivity|]. done.
Qed.

Lemma C5_put_copy_with_body_is_refused_witness :
  handle_PUT Scenarios.serve_stored Scenarios.created Scenarios.ceiling
             Scenarios.put_copy_body = ([], Ok (respond BODY_REFUSED)) /\
  __call__ Scenarios.serve_stored Scenarios.created Scenarios.ceiling
           Scenarios.middleware Scenarios.put_copy_body = ([], Ok (respond BODY_REFUSED)).
Proof.
  pose proof (C5_put_copy_with_body_is_refused Scenarios.serve_stored Scenarios.created
                Scenarios.ceiling Scenarios.put_copy_body 7 eq_refl ltac:(lia))
    as (Hput & _ & Hcall & _).
  exact (conj Hput (Hcall Scenarios.middleware eq_refl eq_refl eq_refl)).
Defined.

(** C5 as stated fails for COPY: a COPY request that declares a body
    is not answered 400; its source is read and written, and the
    answer is that of the write. *)
Lemma C5_copy_with_body_is_not_refused :
  ~ (forall get_response _app_call MAX_FILE_SIZE self (req : Request.t) (n : Z),
       is_copy_request self req = true ->
       Request.content_length req = Some n -> n <> 0 ->
       exists ctx,
         outcome (__call__ get_response _app_call MAX_FILE_SIZE self req) = Ok ctx /\
         _get_status_int ctx = 400).
Proof.
  intros Hclaim.
  destruct (Hclaim Scenarios.serve_stored Scenarios.created Scenarios.ceiling
              Scenarios.middleware Scenarios.copy_across 7 eq_refl eq_refl ltac:(lia))
    as (ctx & Hrun & Hstatus).
  vm_compute in Hrun. injection Hrun as <-. vm_compute in Hstatus. discriminate Hstatus.
Qed.

(** C6.  After the write: a post-as-copy whose write answers 201 is
    reported as 202 Accepted; any other copy whose write answers 201
    is reported with that status; and any other copy whose write
    succeeds has the supplementary headers appended to the headers of
    the write's response. *)
Theorem C6_created_becomes_accepted_for_post (_app_call : Request.t -> WSGIContext)
    (req : Request.t) (additional_resp_headers : gmap string string) :
  let ctx := _app_call req in
  let reported := _adjust_put_response ctx req additional_resp_headers in
  send_put_req _app_call req additional_resp_headers = ([AppCall req], Ok reported) /\
  (Request.post_as_copy req = true -> _get_status_int ctx = HTTP_CREATED ->
   _response_status reported = (202, "Accepted")) /\
  (Request.post_as_copy req = false -> _get_status_int ctx = HTTP_CREATED ->
   _response_status reported = _response_status ctx) /\
  (Request.post_as_copy req = false -> is_success (_get_status_int ctx) = true ->
   _response_status reported = _response_status ctx /\
   _response_headers reported =
     _response_headers ctx ++ map_to_list additional_resp_headers).
Proof.
  intros ctx reported. subst reported. unfold _adjust_put_response.
  split; [done|]. split; [|split].
  - intros -> Hst. by rewrite bool_decide_eq_true_2.
  - intros -> Hst. by destruct (is_success _).
  - intros -> ->. done.
Qed.

Lemma C6_created_becomes_accepted_for_post_witness :
  _response_status
    (_adjust_put_response (Scenarios.created Scenarios.put_copy)
       (Request.set_post_as_copy true Scenarios.put_copy) ∅) = (202, "Accepted") /\
  _response_status
    (_adjust_put_response (Scenarios.created Scenarios.put_copy) Scenarios.put_copy
       {[ "X-Copied-From" := "c/o" ]}) = (201, "Created") /\
  _response_headers
    (_adjust_put_response (Scenarios.created Scenarios.put_copy) Scenarios.put_copy
       {[ "X-Copied-From" := "c/o" ]}) = [("Content-Length", "0"); ("X-Copied-From", "c/o")].
Proof.
  pose proof (C6_created_becomes_accepted_for_post Scenarios.created
                (Request.set_post_as_copy true Scenarios.put_copy) ∅) as (_ & Hpost & _).
  pose proof (C6_created_becomes_accepted_for_post Scenarios.created Scenarios.put_copy
                {[ "X-Copied-From" := "c/o" ]}) as (_ & _ & Hput & Hok).
  exact (conj (Hpost eq_refl eq_refl)
           (conj (Hput eq_refl eq_refl) (proj2 (Hok eq_refl eq_refl)))).
Defined.

End LocalClaims.

(** ** Path headers and OPTIONS *)

Section PathClaims.
Import PyStr Helpers Copy Views.

(** C3.  A value of X-Copy-From or Destination that, decoded and given
    its leading slash, is not a slash, a container name without slash,
    a slash and an object name, both non-empty, makes the check raise
    412 Precondition Failed with the message of that header; the two
    messages differ.  The handlers raise it before they call anything. *)
Theorem C3_malformed_path_header_is_refused get_response _app_call MAX_FILE_SIZE
    (self : Middleware) (req : Request.t) (v : string) :
  ~ well_formed_path (repaired_path v) ->
  (hget (Request.headers req) "X-Copy-From" = Some v ->
   _check_copy_from_header req =
     Raise (HTTPException (HTTPPreconditionFailed X_COPY_FROM_MSG)) /\
   forall ver acct rest src_account_name,
     no_body req ->
     Request.split_path req 2 3 = Some [Some ver; Some acct; rest] ->
     source_account req acct = Ok src_account_name ->
     handle_PUT get_response _app_call MAX_FILE_SIZE req =
       ([], Raise (HTTPException (HTTPPreconditionFailed X_COPY_FROM_MSG)))) /\
  (hget (Request.headers req) "Destination" = Some v ->
   _check_destination_header req =
     Raise (HTTPException (HTTPPreconditionFailed DESTINATION_MSG)) /\
   forall dest_account,
     v <> "" ->
     destination_account self req = Ok dest_account ->
     handle_COPY get_response _app_call MAX_FILE_SIZE self req =
       ([], Raise (HTTPException (HTTPPreconditionFailed DESTINATION_MSG)))) /\
  Response.status (HTTPPreconditionFailed X_COPY_FROM_MSG) = (412, "Precondition Failed") /\
  Response.app_iter (HTTPPreconditionFailed X_COPY_FROM_MSG) = [X_COPY_FROM_MSG] /\
  Response.status (HTTPPreconditionFailed DESTINATION_MSG) = (412, "Precondition Failed") /\
  Response.app_iter (HTTPPreconditionFailed DESTINATION_MSG) = [DESTINATION_MSG] /\
  X_COPY_FROM_MSG <> DESTINATION_MSG.
Proof.
  intros Hbad. split; [|split; [|done]].
  - intros Hv.
    assert (_check_copy_from_header req =
              Raise (HTTPException (HTTPPreconditionFailed X_COPY_FROM_MSG))) as Hraise
      by (by apply (_check_path_header_malformed _ _ _ v)).
    split; [done|]. intros ver acct rest a Hbody Hsplit Hacct.
    unfold handle_PUT.
    replace (match Request.content_length req with
             | Some n => negb (n =? 0)
             | None => false
             end) with false by (by destruct Hbody as [-> | ->]).
    rewrite Hsplit. cbv beta iota. rewrite bind_lift_Ok.
    fold (source_account req acct). rewrite Hacct, bind_lift_Ok, Hraise. done.
  - intros Hv.
    assert (_check_destination_header req =
              Raise (HTTPException (HTTPPreconditionFailed DESTINATION_MSG))) as Hraise
      by (by apply (_check_path_header_malformed _ _ _ v)).
    split; [done|]. intros da Hne Hda.
    unfold handle_COPY. rewrite Hv. unfold truthy.
    rewrite bool_decide_eq_false_2 by done. cbn [negb].
    unfold destination_account in Hda.
    destruct (hin "Destination-Account" (Request.headers req)).
    + rewrite Hda, bind_lift_Ok. cbv beta iota zeta.
      match goal with
      | |- context [_check_destination_header ?r] =>
          rewrite (_check_destination_header_ext r req)
            by (simpl_request; unfold hget; by rewrite hpop_lookup_ne, hset_lookup_ne)
      end.
      by rewrite Hraise.
    + rewrite bind_lift_Ok. cbv beta iota zeta. by rewrite Hraise.
Qed.

Lemma split_none_not_well_formed p : split_path p 2 2 = None -> ~ well_formed_path p.
Proof.
  intros Hnone (c & o & -> & Hc & Ho & Hs). by rewrite split_path_2_2_ok in Hnone.
Qed.

Lemma C3_malformed_path_header_is_refused_witness :
  _check_copy_from_header Scenarios.bad_paths =
    Raise (HTTPException (HTTPPreconditionFailed X_COPY_FROM_MSG)) /\
  handle_PUT Scenarios.serve_stored Scenarios.created Scenarios.ceiling Scenarios.bad_paths =
    ([], Raise (HTTPException (HTTPPreconditionFailed X_COPY_FROM_MSG))) /\
  _check_destination_header Scenarios.bad_paths =
    Raise (HTTPException (HTTPPreconditionFailed DESTINATION_MSG)) /\
  handle_COPY Scenarios.serve_stored Scenarios.created Scenarios.ceiling
              Scenarios.middleware Scenarios.bad_paths =
    ([], Raise (HTTPException (HTTPPreconditionFailed DESTINATION_MSG))).
Proof.
  pose proof (C3_malformed_path_header_is_refused Scenarios.serve_stored Scenarios.created
                Scenarios.ceiling Scenarios.middleware Scenarios.bad_paths "c"
                (split_none_not_well_formed (repaired_path "c") eq_refl))
    as (Hfrom & Hdest & _).
  destruct (Hfrom eq_refl) as [Hcheck Hput].
  destruct (Hdest eq_refl) as [Hcheck' Hcopy].
  refine (conj Hcheck (conj (Hput "v1" "AUTH_a" (Some "c2/o2") "AUTH_a" _ eq_refl eq_refl)
            (conj Hcheck' (Hcopy "" _ eq_refl)))).
  - by right.
  - discriminate.
Defined.

(** C9.  On a successful answer to OPTIONS, an Allow or
    Access-Control-Allow-Methods header whose value has no COPY gets
    ", COPY" appended, so that COPY occurs in it once; a header of
    another name, or one that has COPY already, is left as it is, and
    so are the status and the number of headers; adapting the answer
    again changes nothing. *)
Theorem C9_options_answer_gains_COPY (_app_call : Request.t -> WSGIContext)
    (req : Request.t) (i : nat) (header value : string) :
  let ctx := _app_call req in
  let adapted := adapt_OPTIONS ctx in
  is_success (_get_status_int ctx) = true ->
  _response_headers ctx !! i = Some (header, value) ->
  lower header = "allow" \/ lower header = "access-control-allow-methods" ->
  contains "COPY" value = false ->
  handle_OPTIONS_request _app_call req = ([AppCall req], Ok adapted) /\
  (exists header',
     _response_headers adapted !! i = Some (header', value +:+ ", COPY") /\
     lower header' = lower header) /\
  occurrences "COPY" (value +:+ ", COPY") = 1%nat /\
  (forall j h x,
     _response_headers ctx !! j = Some (h, x) ->
     (lower h <> "allow" /\ lower h <> "access-control-allow-methods") \/
       contains "COPY" x = true ->
     _response_headers adapted !! j = Some (h, x)) /\
  length (_response_headers adapted) = length (_response_headers ctx) /\
  _response_status adapted = _response_status ctx /\
  adapt_OPTIONS adapted = adapted.
Proof.
  intros ctx adapted Hok Hi Hname Hnone.
  assert (_response_headers adapted = adapt_header <$> _response_headers ctx) as Hmap.
  { subst adapted. unfold adapt_OPTIONS. rewrite Hok. cbn [_response_headers].
    apply options_loop_map. }
  split; [done|]. split; [|split; [|split; [|split; [|split]]]].
  - rewrite Hmap, list_lookup_fmap, Hi. cbn [fmap option_fmap option_map].
    unfold adapt_header. cbn [fst snd]. rewrite Hnone. cbn [negb].
    destruct Hname as [Hn|Hn]; rewrite Hn.
    + rewrite bool_decide_eq_true_2 by done. cbn [andb]. by exists "Allow".
    + rewrite bool_decide_eq_false_2 by done. rewrite bool_decide_eq_true_2 by done.
      cbn [andb]. by exists "Access-Control-Allow-Methods".
  - rewrite occurrences_COPY_suffix. by rewrite (contains_false_occurrences _ _ Hnone).
  - intros j h x Hj Hkeep. rewrite Hmap, list_lookup_fmap, Hj.
    cbn [fmap option_fmap option_map]. f_equal.
    destruct Hkeep as [[Ha Hb]|Hc]; [|by apply adapt_header_has_COPY].
    unfold adapt_header. cbn [fst snd].
    by rewrite !bool_decide_eq_false_2.
  - by rewrite Hmap, length_fmap.
  - subst adapted. unfold adapt_OPTIONS. by rewrite Hok.
  - apply adapt_OPTIONS_idemp.
Qed.

Lemma C9_options_answer_gains_COPY_witness :
  let adapted := adapt_OPTIONS (Scenarios.options_answer Scenarios.options_request) in
  handle_OPTIONS_request Scenarios.options_answer Scenarios.options_request =
    ([AppCall Scenarios.options_request], Ok adapted) /\
  (exists header',
     _response_headers adapted !! 0%nat =
       Some (header', "HEAD, GET, PUT, POST, OPTIONS, DELETE, COPY") /\
     lower header' = "allow") /\
  occurrences "COPY" "HEAD, GET, PUT, POST, OPTIONS, DELETE, COPY" = 1%nat /\
  _response_headers adapted !! 2%nat = Some ("Content-Length", "0") /\
  adapt_OPTIONS adapted = adapted.
Proof.
  pose proof (C9_options_answer_gains_COPY Scenarios.options_answer Scenarios.options_request
                0 "Allow" "HEAD, GET, PUT, POST, OPTIONS, DELETE"
                eq_refl eq_refl (or_introl eq_refl) eq_refl)
    as (Hrun & Hallow & Honce & Hother & _ & _ & Hidem).
  refine (conj Hrun (conj Hallow (conj Honce (conj (Hother 2%nat _ _ eq_refl _) Hidem)))).
  left. split; discriminate.
Defined.

End PathClaims.

(** ** The account a copy is read from *)

Section AccountClaims.
Import PyStr Helpers Copy Views.

(** A piece does not depend on how many splits are allowed after it. *)
Lemma split_go_stable s n m cur i :
  (i < n)%nat -> (i < m)%nat -> split_go s n cur !! i = split_go s m cur !! i.
Proof.
  revert n m cur i. induction s as [|a s IH]; intros n m cur i Hn Hm; [done|].
  destruct n as [|n]; [lia|]. destruct m as [|m]; [lia|]. cbn [split_go].
  destruct (decide (a = "/"%char)).
  - destruct i as [|i]; [done|]. cbn. apply IH; lia.
  - by apply IH.
Qed.

Lemma split_path_seg path minsegs maxsegs parts j x :
  (0 < maxsegs)%nat -> (minsegs <= maxsegs)%nat ->
  split_path path minsegs maxsegs = Some parts ->
  parts !! j = Some (Some x) ->
  split_slash path maxsegs !! S j = Some x /\ (j < maxsegs)%nat.
Proof.
  intros Hpos Hle. rewrite split_path_eq by done. cbn zeta.
  set (segs := split_slash path maxsegs).
  destruct (_ || _) eqn:Hbad; [done|]. intros [= <-] Hj.
  destruct (decide (j < length (take maxsegs (drop 1 segs)))%nat) as [Hlt|Hge].
  - rewrite lookup_app_l in Hj by (by rewrite length_fmap).
    rewrite list_lookup_fmap in Hj.
    destruct (take maxsegs (drop 1 segs) !! j) as [y|] eqn:Hy; [|done].
    cbn in Hj. injection Hj as ->.
    apply lookup_take_Some in Hy as [Hy ?]. by rewrite lookup_drop in Hy.
  - rewrite lookup_app_r in Hj by (rewrite length_fmap; lia).
    apply lookup_replicate in Hj as [? _]. done.
Qed.

(** The version read with two splits is the one read with four. *)
Lemma split_path_version path ver a c o ver' junk :
  split_path path 4 4 = Some [Some ver; Some a; Some c; Some o] ->
  split_path path 1 2 = Some [Some ver'; junk] ->
  ver' = ver.
Proof.
  intros H4 H2.
  destruct (split_path_seg _ 4 4 _ 0 ver ltac:(lia) ltac:(lia) H4 eq_refl) as [Hs4 _].
  destruct (split_path_seg _ 1 2 _ 0 ver' ltac:(lia) ltac:(lia) H2 eq_refl) as [Hs2 _].
  unfold split_slash in *.
  rewrite (split_go_stable _ 4 2 "" 1) in Hs4 by lia. congruence.
Qed.

Lemma copied_from_headers_account acct path source_resp sink_req :
  copied_from_headers acct path source_resp sink_req !! "X-Copied-From-Account" =
    Some (quote acct).
Proof.
  unfold copied_from_headers. cbn zeta. rewrite fold_insert_lookup.
  change (is_sys_or_user_meta "object" "X-Copied-From-Account" ||
          bool_decide (lower "X-Copied-From-Account" = "x-delete-at")) with false.
  cbv iota. destruct (hget _ "last-modified").
  - do 2 (rewrite lookup_insert_ne by done). apply lookup_insert_eq.
  - rewrite lookup_insert_ne by done. apply lookup_insert_eq.
Qed.

(** The response to a copy that is not a post-as-copy and whose write
    succeeded names the account the source was read from. *)
Lemma written_names_source_account get_response _app_call MAX_FILE_SIZE
    (req sreq sink : Request.t) (ctx : WSGIContext) :
  handle_PUT get_response _app_call MAX_FILE_SIZE req =
    ([SubRequest sreq; AppCall sink], Ok ctx) ->
  Request.post_as_copy req = false ->
  is_success (_get_status_int (_app_call sink)) = true ->
  exists ver acct rest src_account_name,
    Request.split_path req 2 3 = Some [Some ver; Some acct; rest] /\
    source_account req acct = Ok src_account_name /\
    Request.path_info sink = Request.path_info req /\
    ("X-Copied-From-Account", quote src_account_name) ∈ _response_headers ctx.
Proof.
  intros Hrun Hpost Hok.
  destruct (handle_PUT_written get_response _app_call MAX_FILE_SIZE req sreq sink)
    as (ver & a & c & o & Hval & _ & _ & _ & _ & Hsink & Hout).
  { by rewrite Hrun. }
  destruct Hval as (_ & (acct & rest & Hsplit & Hacct) & _).
  exists ver, acct, rest, a. split; [done|]. split; [done|].
  split; [by rewrite Hsink, sink_request_path_info|].
  rewrite Hrun in Hout. cbn [outcome snd] in Hout. injection Hout as ->.
  unfold _adjust_put_response.
  rewrite Hsink at 1. rewrite sink_request_post_as_copy, Hpost, Hok.
  cbn [_response_headers]. apply elem_of_app. right.
  apply elem_of_map_to_list. apply copied_from_headers_account.
Qed.

(** C7, as the code has it.  A COPY from account A with
    Destination-Account: B is written to B's destination path, and when
    the write succeeds the response has X-Copied-From-Account with the
    URL-encoded A.  The header is not reserved for cross-account
    copies: every copy that is not a post-as-copy and whose write
    succeeds has it, with the account the source was read from. *)
Theorem C7_cross_account_copy_names_source get_response _app_call MAX_FILE_SIZE :
  (forall self (req sreq sink : Request.t) (ctx : WSGIContext) (ver A c o B : string),
     Request.method req = "COPY" ->
     Request.split_path req 4 4 = Some [Some ver; Some A; Some c; Some o] ->
     hget (Request.headers req) "Destination-Account" = Some B ->
     Request.post_as_copy req = false ->
     __call__ get_response _app_call MAX_FILE_SIZE self req =
       ([SubRequest sreq; AppCall sink], Ok ctx) ->
     (exists dest_container dest_object,
        unpack2 (_check_destination_header req) = Ok (dest_container, dest_object) /\
        Request.path_info sink =
          "/" +:+ ver +:+ "/" +:+ B +:+ "/" +:+ dest_container +:+ "/" +:+ dest_object) /\
     (is_success (_get_status_int (_app_call sink)) = true ->
      ("X-Copied-From-Account", quote A) ∈ _response_headers ctx)) /\
  (forall (req sreq sink : Request.t) (ctx : WSGIContext),
     handle_PUT get_response _app_call MAX_FILE_SIZE req =
       ([SubRequest sreq; AppCall sink], Ok ctx) ->
     Request.post_as_copy req = false ->
     is_success (_get_status_int (_app_call sink)) = true ->
     exists ver acct rest src_account_name,
       Request.split_path req 2 3 = Some [Some ver; Some acct; rest] /\
       source_account req acct = Ok src_account_name /\
       ("X-Copied-From-Account", quote src_account_name) ∈ _response_headers ctx).
Proof.
  split.
  2:{ intros req sreq sink ctx Hrun Hpost Hok.
      destruct (written_names_source_account _ _ _ _ _ _ _ Hrun Hpost Hok)
        as (ver & acct & rest & a & ? & ? & _ & ?).
      by exists ver, acct, rest, a. }
  intros self req sreq sink ctx ver A c o B Hm Hsplit HB Hpost Hrun.
  destruct (split_path_Some _ 4 4 _ 1 A ltac:(lia) ltac:(lia) Hsplit eq_refl)
    as [HAslash HAne].
  specialize (HAslash ltac:(lia)). specialize (HAne ltac:(lia)).
  unfold __call__ in Hrun. rewrite Hsplit in Hrun. cbv zeta in Hrun. simpl_request.
  rewrite Hm in Hrun.
  change (bool_decide ("COPY" = "PUT")) with false in Hrun.
  change (bool_decide ("COPY" = "COPY")) with true in Hrun. cbn [andb] in Hrun.
  set (self' := mkMiddleware A c o (object_post_as_copy self)) in Hrun.
  set (req1 := Request.set_orig_req_method (Some "COPY") req) in Hrun.
  destruct (handle_COPY_cases get_response _app_call MAX_FILE_SIZE self' req1)
    as [Hnil|(ver' & da & dc & dobj & Hda & Hdest & (junk & Hver) & Heq)].
  { by rewrite Hrun in Hnil. }
  assert (hin "Destination-Account" (Request.headers req1) = true) as Hin.
  { unfold hin, hget in *. subst req1. simpl_request. apply bool_decide_eq_true_2.
    by eexists. }
  assert (da = B) as ->.
  { unfold destination_account in Hda. rewrite Hin in Hda.
    subst req1. simpl_request. rewrite HB in Hda. cbn [default] in Hda.
    by apply check_account_format_Ok in Hda as [-> _]. }
  assert (ver' = ver) as ->.
  { by apply (split_path_version (Request.path_info req) ver A c o ver' junk). }
  rewrite Heq in Hrun.
  set (req' := copy_as_put self' req1 ver B dc dobj) in *.
  assert (Request.post_as_copy req' = false) as Hpost'.
  { subst req' req1. unfold copy_as_put. by case_match. }
  assert (Request.path_info req' =
            "/" +:+ ver +:+ "/" +:+ B +:+ "/" +:+ dc +:+ "/" +:+ dobj) as Hpath.
  { subst req'. unfold copy_as_put. by case_match. }
  split.
  - exists dc, dobj. split; [exact Hdest|].
    destruct (handle_PUT_written get_response _app_call MAX_FILE_SIZE req' sreq sink)
      as (? & ? & ? & ? & _ & _ & _ & _ & _ & -> & _); [by rewrite Hrun|].
    by rewrite sink_request_path_info.
  - intros Hok.
    destruct (written_names_source_account _ _ _ _ _ _ _ Hrun Hpost' Hok)
      as (ver2 & acct2 & rest2 & a & _ & Hacct & _ & Hhdr).
    assert (a = A) as ->; [|done].
    unfold source_account in Hacct.
    assert (hget (Request.headers req') "X-Copy-From-Account" = Some A) as HA.
    { subst req'. unfold copy_as_put. rewrite Hin. unfold hget. simpl_request.
      rewrite hpop_lookup_ne, hset_lookup_ne, hpop_lookup_ne by done.
      apply lookup_insert_eq. }
    rewrite HA in Hacct. unfold truthy in Hacct.
    rewrite bool_decide_eq_false_2 in Hacct by done. cbn [negb] in Hacct.
    by apply check_account_format_Ok in Hacct as [-> _].
Qed.

Lemma C7_cross_account_copy_names_source_witness :
  exists sreq sink ctx,
    __call__ Scenarios.serve_stored Scenarios.created Scenarios.ceiling
             Scenarios.middleware Scenarios.copy_across =
      ([SubRequest sreq; AppCall sink], Ok ctx) /\
    Request.path_info sink = "/v1/AUTH_b/c2/o2" /\
    ("X-Copied-From-Account", "AUTH_a") ∈ _response_headers ctx.
Proof.
  assert (forall sreq sink ctx,
            __call__ Scenarios.serve_stored Scenarios.created Scenarios.ceiling
                     Scenarios.middleware Scenarios.copy_across =
              ([SubRequest sreq; AppCall sink], Ok ctx) ->
            Request.path_info sink = "/v1/AUTH_b/c2/o2" /\
            ("X-Copied-From-Account", "AUTH_a") ∈ _response_headers ctx) as Huse.
  { intros sreq sink ctx Hrun.
    destruct (proj1 (C7_cross_account_copy_names_source Scenarios.serve_stored
                       Scenarios.created Scenarios.ceiling)
                Scenarios.middleware Scenarios.copy_across sreq sink ctx
                "v1" "AUTH_a" "c" "o" "AUTH_b" eq_refl eq_refl eq_refl eq_refl Hrun)
      as [(dc & dobj & Hdest & Hpath) Hhdr].
    injection Hdest as <- <-. split; [exact Hpath|]. exact (Hhdr eq_refl). }
  assert (exists sreq sink ctx,
            __call__ Scenarios.serve_stored Scenarios.created Scenarios.ceiling
                     Scenarios.middleware Scenarios.copy_across =
              ([SubRequest sreq; AppCall sink], Ok ctx)) as (sreq & sink & ctx & Hrun)
    by (eexists _, _, _; vm_compute; reflexivity).
  exists sreq, sink, ctx. exact (conj Hrun (Huse _ _ _ Hrun)).
Defined.

(** C7 as stated fails in its last part: a copy within one account has
    X-Copied-From-Account in its response too. *)
Lemma C7_same_account_copy_names_account :
  ~ (forall get_response _app_call MAX_FILE_SIZE (req sreq sink : Request.t)
            (ctx : WSGIContext) (v : string),
       handle_PUT get_response _app_call MAX_FILE_SIZE req =
         ([SubRequest sreq; AppCall sink], Ok ctx) ->
       hget (Request.headers req) "X-Copy-From-Account" = None ->
       ("X-Copied-From-Account", v) ∈ _response_headers ctx ->
       ("X-Copied-From-Account", v) ∈ _response_headers (_app_call sink)).
Proof.
  intros Hclaim.
  assert (("X-Copied-From-Account", "AUTH_a") ∈
            _response_headers (Scenarios.created Scenarios.put_copy)) as Hin.
  { set (sink := sink_request Scenarios.put_copy Scenarios.stored).
    apply (Hclaim Scenarios.serve_stored Scenarios.created Scenarios.ceiling
             Scenarios.put_copy (source_request "/v1/AUTH_a/c/o" Scenarios.put_copy) sink
             (_adjust_put_response (Scenarios.created sink) sink
                (copied_from_headers "AUTH_a" "c/o" Scenarios.stored sink))).
    - vm_compute. reflexivity.
    - reflexivity.
    - vm_compute. apply list_elem_of_In. cbn. tauto. }
  apply list_elem_of_In in Hin. cbn in Hin. destruct Hin as [Hin|[]]. discriminate Hin.
Qed.

End AccountClaims.
